(** * Storefront core: cart state engine and catalog filter

    A shallow embedding of [context/CartContext.js], of the filter of
    [components/CategoryPage.js] and of the head of
    [components/ShoppingCart.js], with the properties of the design document
    stated over it; and of the callers of the cart - the handlers of
    [components/CartItem.js], [components/ShoppingCart.js],
    [components/ProductCard.js] and [components/ProductDetail.js], the home
    page [app/page.js] and the product page [app/product/[id]/page.js] - with
    the properties their code shows.

    Modelling conventions.
    - A JavaScript number that is used as a count ([quantity], [id], [stock])
      is an integer [Z]; a price is an exact rational [Qc].
    - An optional or nullable field is an [option]; [None] stands for both
      [undefined] and [null].
    - A React state cell is its committed value together with the queue of
      [setState] calls issued since the last render. *)

From Stdlib Require Import ZArith NArith QArith Qcanon Qround List Bool Ascii String Lia.
From Stdlib Require Import Decimal DecimalString DecimalPos DecimalZ Lqa.
From stdpp Require Import base decidable option list gmap strings.

Local Open Scope Z_scope.

(** ** Data model *)

(** A catalog product (the [product] prop of ProductCard / ProductDetail). *)
Record Product := {
  id : Z;
  name : string;
  price : Qc;
  originalPrice : option Qc;
  category : option string;
  onSale : option bool;
  featured : option bool;
  stock : option Z;
  colors : option (list string);
  sizes : option (list string)
}.

(** The object the callers hand to [addToCart]:
    [{ ...product, selectedColor, selectedSize }]. *)
Record ProductToAdd := {
  product :> Product;
  selectedColor : option string;
  selectedSize : option string
}.

(** A cart line: [{ ...product, quantity }]. *)
Record CartItem := {
  added :> ProductToAdd;
  quantity : Z
}.

#[global] Instance Qc_eq_decision : EqDecision Qc := Qc_eq_dec.
#[global] Instance Product_eq_dec : EqDecision Product.
Proof. solve_decision. Defined.
#[global] Instance ProductToAdd_eq_dec : EqDecision ProductToAdd.
Proof. solve_decision. Defined.
#[global] Instance CartItem_eq_dec : EqDecision CartItem.
Proof. solve_decision. Defined.

(** [{ ...item, quantity: q }] *)
Definition withQuantity (item : CartItem) (q : Z) : CartItem :=
  {| added := added item; quantity := q |}.

(** ** The cart provider (context/CartContext.js) *)

(** The argument of one [setCartItems] call.  The three arrow functions the
    source passes are kept by name together with the variables they close
    over. *)
Inductive StateUpdate :=
| SetTo (items : list CartItem)
| AddUpdater (prod : ProductToAdd) (qty : Z)
| RemoveUpdater (productId : Z)
| QuantityUpdater (productId : Z) (qty : Z).

(** What a queued update computes from [prevItems]. *)
Definition applyUpdate (u : StateUpdate) (prevItems : list CartItem) : list CartItem :=
  match u with
  | SetTo items => items
  | AddUpdater prod qty =>
      let existingItem := List.find (fun item : CartItem => id item =? id prod) prevItems in
      match existingItem with
      | Some _ =>
          map (fun item : CartItem =>
                 if id item =? id prod
                 then withQuantity item (quantity item + qty)
                 else item) prevItems
      | None => prevItems ++ [ {| added := prod; quantity := qty |} ]
      end
  | RemoveUpdater productId =>
      List.filter (fun item : CartItem => negb (id item =? productId)) prevItems
  | QuantityUpdater productId qty =>
      map (fun item : CartItem =>
             if id item =? productId then withQuantity item qty else item)
          prevItems
  end.

(** [const [cartItems, setCartItems] = useState([])]: the value the current
    render sees, and the updates queued for the next one. *)
Record CartProvider := {
  cartItems : list CartItem;
  queued : list StateUpdate
}.

Definition initial : CartProvider := {| cartItems := []; queued := [] |}.

(** A provider whose last render committed [S] and that has nothing queued. *)
Definition rendered (S : list CartItem) : CartProvider :=
  {| cartItems := S; queued := [] |}.

Definition setCartItems (u : StateUpdate) (st : CartProvider) : CartProvider :=
  {| cartItems := cartItems st; queued := queued st ++ [u] |}.

Definition addToCart (prod : ProductToAdd) (qty : Z) (st : CartProvider) : CartProvider :=
  setCartItems (AddUpdater prod qty) st.

Definition removeFromCart (productId : Z) (st : CartProvider) : CartProvider :=
  setCartItems (RemoveUpdater productId) st.

Definition updateQuantity (productId : Z) (qty : Z) (st : CartProvider) : CartProvider :=
  if qty <=? 0 then removeFromCart productId st
  else setCartItems (QuantityUpdater productId qty) st.

Definition clearCart (st : CartProvider) : CartProvider :=
  setCartItems (SetTo []) st.

(** The next render: the queue is run in call order over the committed
    value. *)
Definition render (st : CartProvider) : CartProvider :=
  {| cartItems := fold_left (fun items u => applyUpdate u items) (queued st) (cartItems st);
     queued := [] |}.

Definition getTotalItems (st : CartProvider) : Z :=
  fold_left (fun total (item : CartItem) => total + quantity item) (cartItems st) 0.

Definition getTotalPrice (st : CartProvider) : Qc :=
  fold_left (fun total (item : CartItem) => (total + price item * Q2Qc (inject_Z (quantity item)))%Qc)
            (cartItems st) (Q2Qc 0).

Definition isCartEmpty (st : CartProvider) : bool :=
  (length (cartItems st) =? 0)%nat.

(** The four mutating operations of the public interface. *)
Inductive Mutation :=
| Add (prod : ProductToAdd) (qty : Z)
| Remove (productId : Z)
| SetQuantity (productId : Z) (qty : Z)
| Clear.

Definition perform (m : Mutation) (st : CartProvider) : CartProvider :=
  match m with
  | Add prod qty => addToCart prod qty st
  | Remove productId => removeFromCart productId st
  | SetQuantity productId qty => updateQuantity productId qty st
  | Clear => clearCart st
  end.

(** The snapshot seen once the calls [ms], made on a provider showing [S],
    have been rendered. *)
Definition snapshotAfter (ms : list Mutation) (S : list CartItem) : list CartItem :=
  cartItems (render (fold_left (fun st m => perform m st) ms (rendered S))).

(** Entries of a snapshot for one product id. *)
Definition entriesFor (productId : Z) (S : list CartItem) : list CartItem :=
  List.filter (fun item : CartItem => id item =? productId) S.

(** ** Exceptions *)

Inductive Exception :=
| SyntaxError
| SecurityError
| QuotaExceededError
| TypeError (message : string).

(** The outcome of evaluating a piece of JavaScript: a value, or a thrown
    exception. *)
Inductive Completion (A : Type) :=
| Normal (a : A)
| Throw (e : Exception).
Arguments Normal {A} a.
Arguments Throw {A} e.

Definition andThen {A B} (c : Completion A) (k : A -> Completion B) : Completion B :=
  match c with
  | Normal a => k a
  | Throw e => Throw e
  end.

#[global] Instance Completion_bind : MBind Completion :=
  fun A B k c => andThen c k.
#[global] Instance Completion_ret : MRet Completion :=
  fun A a => Normal a.

(** [try { body } catch (error) { handler }] *)
Definition tryCatch {A} (body : Completion A) (handler : Exception -> Completion A) : Completion A :=
  match body with
  | Normal a => Normal a
  | Throw e => handler e
  end.

(** ** Persistence (the two effects of CartProvider) *)

(** The serializer of the JavaScript runtime, restricted to cart snapshots.
    [JSON_parse] throws on text that is not JSON. *)
Class JSON := {
  JSON_stringify : list CartItem -> string;
  JSON_parse : string -> Completion (list CartItem)
}.

(** The browser's [localStorage]: access throws when storage is disabled,
    a write throws when the value does not fit. *)
Record Storage := {
  enabled : bool;
  slots : gmap string string;
  quota : nat
}.

Definition getItem (key : string) (ls : Storage) : Completion (option string) :=
  if enabled ls then Normal (slots ls !! key) else Throw SecurityError.

Definition setItem (key value : string) (ls : Storage) : Completion Storage :=
  if negb (enabled ls) then Throw SecurityError
  else if (quota ls <? String.length value)%nat then Throw QuotaExceededError
  else Normal {| enabled := enabled ls; slots := <[key := value]> (slots ls); quota := quota ls |}.

(** [if (savedCart)]: [null] and the empty string are falsy. *)
Definition truthy (s : option string) : bool :=
  match s with
  | Some s => negb (String.eqb s "")
  | None => false
  end.

(** The mount effect, lines 53-62.  The [catch] branch only logs. *)
Definition loadEffect `{JSON} (ls : Storage) (st : CartProvider) : Completion CartProvider :=
  tryCatch
    (savedCart ← getItem "shopping-cart" ls;
     if truthy savedCart
     then parsed ← JSON_parse (default "" savedCart);
          Normal (setCartItems (SetTo parsed) st)
     else Normal st)
    (fun error => Normal st).

(** The effect on [cartItems], lines 67-73.  The [catch] branch only logs. *)
Definition saveEffect `{JSON} (ls : Storage) (st : CartProvider) : Completion Storage :=
  tryCatch
    (setItem "shopping-cart" (JSON_stringify (cartItems st)) ls)
    (fun error => Normal ls).

(** First render of the provider: both effects run, in source order, on the
    initial state. *)
Definition mount `{JSON} (ls : Storage) : Completion (CartProvider * Storage) :=
  st ← loadEffect ls initial;
  ls' ← saveEffect ls initial;
  Normal (st, ls').

(** A later render: the queue is committed, then the save effect runs. *)
Definition rerender `{JSON} (w : CartProvider * Storage) : Completion (CartProvider * Storage) :=
  let st := render (fst w) in
  ls' ← saveEffect (snd w) st;
  Normal (st, ls').

(** [load()]: the snapshot the provider shows once the mount effect's update
    has been rendered. *)
Definition load `{JSON} (ls : Storage) : Completion (list CartItem) :=
  st ← loadEffect ls initial;
  Normal (cartItems (render st)).


(** ** The order summary of components/ShoppingCart.js *)

(** A member of the context object, as far as ShoppingCart uses it: the
    state array, a mutator, or a zero-argument getter together with the
    result it returns in this render. *)
Inductive Member :=
| Items (items : list CartItem)
| Callback
| NumberGetter (result : Qc)
| BoolGetter (result : bool).

(** The object literal [value] of CartProvider, lines 171-180. *)
Definition value (st : CartProvider) : list (string * Member) :=
  [ ("cartItems", Items (cartItems st));
    ("addToCart", Callback);
    ("removeFromCart", Callback);
    ("updateQuantity", Callback);
    ("clearCart", Callback);
    ("getTotalItems", NumberGetter (Q2Qc (inject_Z (getTotalItems st))));
    ("getTotalPrice", NumberGetter (getTotalPrice st));
    ("isCartEmpty", BoolGetter (isCartEmpty st)) ].

(** Property read [obj.key]; [None] is [undefined]. *)
Definition prop (obj : list (string * Member)) (key : string) : option Member :=
  snd <$> List.find (fun kv => String.eqb (fst kv) key) obj.

(** The call [f()] of a destructured number getter [f].  Calling
    [undefined] throws a TypeError. *)
Definition callNumber (fname : string) (f : option Member) : Completion Qc :=
  match f with
  | Some (NumberGetter result) => Normal result
  | _ => Throw (TypeError (fname +:+ " is not a function"))
  end.

Record OrderSummary := {
  totalItems : Qc;
  itemsTotal : Qc;
  originalTotal : Qc;
  discount : Qc;
  total : Qc
}.

(** ShoppingCart, lines 60-82: the destructuring of [useCart()] and the
    totals computed from it. *)
Definition ShoppingCart (st : CartProvider) : Completion OrderSummary :=
  let ctx := value st in
  let getTotalItems := prop ctx "getTotalItems" in
  let getTotalPrice := prop ctx "getTotalPrice" in
  let getOriginalTotalPrice := prop ctx "getOriginalTotalPrice" in
  let getTotalDiscount := prop ctx "getTotalDiscount" in
  totalItems ← callNumber "getTotalItems" getTotalItems;
  itemsTotal ← callNumber "getTotalPrice" getTotalPrice;
  originalTotal ← callNumber "getOriginalTotalPrice" getOriginalTotalPrice;
  discount ← callNumber "getTotalDiscount" getTotalDiscount;
  let subtotal := itemsTotal in
  let shipping := Q2Qc 0 in
  let tax := Q2Qc 0 in
  Normal {| totalItems := totalItems; itemsTotal := itemsTotal;
            originalTotal := originalTotal; discount := discount;
            total := (subtotal + shipping + tax)%Qc |}.

(** ** The catalog filter of components/CategoryPage.js *)

(** [String.prototype.toLowerCase] on the ASCII letters; other characters
    are left as they are. *)
Definition toLowerCase_char (c : ascii) : ascii :=
  let n := N_of_ascii c in
  if ((65 <=? n) && (n <=? 90))%N then ascii_of_N (n + 32) else c.

Fixpoint toLowerCase (s : string) : string :=
  match s with
  | EmptyString => EmptyString
  | String c rest => String (toLowerCase_char c) (toLowerCase rest)
  end.

(** [flag === true] *)
Definition isTrue (flag : option bool) : bool :=
  match flag with
  | Some true => true
  | _ => false
  end.

(** [field === literal] for an optional string field. *)
Definition strictEquals (field : option string) (literal : string) : bool :=
  match field with
  | Some s => String.eqb s literal
  | None => false
  end.

(** The callback of [PRODUCTS.filter], lines 39-60. *)
Definition matchesCategory (categoryName : string) (p : Product) : bool :=
  let selector := toLowerCase categoryName in
  if String.eqb selector "sale & clearance" || String.eqb selector "sale-clearance"
  then isTrue (onSale p)
  else if String.eqb selector "featured"
  then isTrue (featured p)
  else if String.eqb selector "cyber days" || String.eqb selector "cyber-days"
  then isTrue (onSale p) || isTrue (featured p)
  else if String.eqb selector "black friday" || String.eqb selector "black-friday"
  then isTrue (onSale p)
  else if String.eqb selector "work boots & shoes" || String.eqb selector "work-boots-and-shoes"
  then strictEquals (category p) "Work Boots & Shoes"
  else if negb (truthy (category p)) then false
  else String.eqb (toLowerCase (default "" (category p))) selector.

(** [categoryProducts]; the catalog [PRODUCTS] of utils/constants is a
    parameter. *)
Definition categoryProducts (categoryName : string) (PRODUCTS : list Product) : list Product :=
  List.filter (matchesCategory categoryName) PRODUCTS.

(** The normalized selectors that the special rules 1-5 take. *)
Definition specialSelectors : list string :=
  [ "sale & clearance"; "sale-clearance"; "featured"; "cyber days"; "cyber-days";
    "black friday"; "black-friday"; "work boots & shoes"; "work-boots-and-shoes" ].

(** ** Vocabulary of the properties *)

(** The update a mutating call puts on the queue. *)
Definition updateOf (m : Mutation) : StateUpdate :=
  match m with
  | Add prod qty => AddUpdater prod qty
  | Remove productId => RemoveUpdater productId
  | SetQuantity productId qty =>
      if qty <=? 0 then RemoveUpdater productId else QuantityUpdater productId qty
  | Clear => SetTo []
  end.

(** No entry of [S] is for [productId]. *)
Definition absent (productId : Z) (S : list CartItem) : Prop :=
  Forall (fun item : CartItem => id item <> productId) S.

(** The quantity invariant of the data model. *)
Definition positiveQuantities (S : list CartItem) : Prop :=
  Forall (fun item : CartItem => 1 <= quantity item) S.

(** Every [Add] of a call sequence asks for at least one unit. *)
Definition addsAtLeastOne (ms : list Mutation) : Prop :=
  Forall (fun m => match m with Add _ qty => 1 <= qty | _ => True end) ms.

(** The merge law read on an arbitrary starting snapshot: after
    [add(P, m); add(P', n)] with [P'.id = P.id] there is one entry for the
    id, of quantity [m + n]. *)
Definition mergeLawOnAnySnapshot (S : list CartItem) (P P' : ProductToAdd) (m n : Z) : Prop :=
  exists e, entriesFor (id P) (snapshotAfter [Add P m; Add P' n] S) = [e]
            /\ quantity e = m + n.

(** A mutating call has published its result when it returns: the snapshot
    and the item count read right after the call are those of the next
    render. *)
Definition publishedOnReturn (m : Mutation) (st : CartProvider) : Prop :=
  cartItems (perform m st) = cartItems (render (perform m st))
  /\ getTotalItems (perform m st) = getTotalItems (render (perform m st)).

(** Rule 6 read with "defined" as "not undefined": a product whose category
    equals the selector up to letter case is selected. *)
Definition rule6MatchesDefined (categoryName : string) (p : Product) : Prop :=
  ~ In (toLowerCase categoryName) specialSelectors ->
  forall c, category p = Some c ->
            toLowerCase c = toLowerCase categoryName ->
            matchesCategory categoryName p = true.

(** ** Sample data *)

Definition boot : Product :=
  {| id := 5; name := "Steel Toe Boot"; price := Q2Qc (inject_Z 10);
     originalPrice := Some (Q2Qc (inject_Z 15));
     category := Some "Work Boots & Shoes";
     onSale := Some true; featured := None; stock := Some 8;
     colors := Some ["Black"; "Brown"]; sizes := None |}.

Definition sneaker : Product :=
  {| id := 7; name := "Canvas Sneaker"; price := Q2Qc (inject_Z 40);
     originalPrice := None;
     category := Some "work boots & shoes";
     onSale := Some false; featured := Some true; stock := None;
     colors := None; sizes := Some ["9"; "10"] |}.

Definition unlabelled : Product :=
  {| id := 9; name := "Gift Wrap"; price := Q2Qc (inject_Z 2);
     originalPrice := None; category := Some "";
     onSale := None; featured := None; stock := None;
     colors := None; sizes := None |}.

Definition blackBoot : ProductToAdd :=
  {| product := boot; selectedColor := Some "Black"; selectedSize := None |}.

(** The same product id offered later at another price and with other
    options chosen. *)
Definition brownBootRepriced : ProductToAdd :=
  {| product := {| id := 5; name := "Steel Toe Boot"; price := Q2Qc (inject_Z 12);
                   originalPrice := None; category := Some "Work Boots & Shoes";
                   onSale := Some false; featured := None; stock := Some 8;
                   colors := Some ["Black"; "Brown"]; sizes := None |};
     selectedColor := Some "Brown"; selectedSize := Some "10" |}.

Definition plainSneaker : ProductToAdd :=
  {| product := sneaker; selectedColor := None; selectedSize := Some "9" |}.

Definition sampleCart : list CartItem :=
  [ {| added := blackBoot; quantity := 2 |} ].

(** JSON text is written without literal quote characters. *)
Definition quoted (s : string) : string :=
  String (ascii_of_N 34) s +:+ String (ascii_of_N 34) EmptyString.

Definition member (key text : string) : string :=
  quoted key +:+ ":" +:+ text.

(** [JSON.stringify(sampleCart)] as a browser prints it. *)
Definition sampleCartText : string :=
  "[{" +:+ member "id" "5," +:+ member "name" (quoted "Steel Toe Boot") +:+ ","
  +:+ member "price" "10," +:+ member "originalPrice" "15,"
  +:+ member "category" (quoted "Work Boots & Shoes") +:+ ","
  +:+ member "onSale" "true," +:+ member "stock" "8,"
  +:+ member "colors" ("[" +:+ quoted "Black" +:+ "," +:+ quoted "Brown" +:+ "],")
  +:+ member "selectedColor" (quoted "Black") +:+ ","
  +:+ member "quantity" "2" +:+ "}]".

(** A fragment of the runtime's JSON, tabulated on the texts of the examples:
    the empty array and [sampleCartText].  Any other text is rejected. *)
Definition tabulatedJSON : JSON :=
  {| JSON_stringify := fun S =>
       if decide (S = sampleCart) then sampleCartText else "[]";
     JSON_parse := fun text =>
       if String.eqb text "[]" then Normal []
       else if String.eqb text sampleCartText then Normal sampleCart
       else Throw SyntaxError |}.

Definition emptyStorage : Storage :=
  {| enabled := true; slots := ∅; quota := 4096 |}.

(** A slot that holds text which is not JSON. *)
Definition corruptedStorage : Storage :=
  {| enabled := true; slots := {[ "shopping-cart" := "[{id:5,,," ]}; quota := 4096 |}.

Definition savedStorage : Storage :=
  {| enabled := true; slots := {[ "shopping-cart" := sampleCartText ]}; quota := 4096 |}.

(** ** The callers of the cart provider *)

(** The product ids of a snapshot, in order. *)
Definition productIds (S : list CartItem) : list Z :=
  map (fun item : CartItem => id item) S.

(** A count as a JavaScript number. *)
Definition number (z : Z) : Qc := Q2Qc (inject_Z z).

(** [a || b] on numbers: [undefined] and [0] are falsy. *)
Definition orElse (a : option Qc) (b : Qc) : Qc :=
  match a with
  | Some x => if decide (x = Q2Qc 0) then b else x
  | None => b
  end.

(** components/CartItem.js *)
Module CartItem_js.

Definition handleQuantityChange (item : CartItem) (newQuantity : Z)
    (st : CartProvider) : CartProvider :=
  if newQuantity <? 1 then removeFromCart (id item) st
  else updateQuantity (id item) newQuantity st.

Definition getSubtotal (item : CartItem) : Qc :=
  (price item * number (quantity item))%Qc.

End CartItem_js.

(** components/ShoppingCart.js, the handlers and the per-line amounts. *)
Module ShoppingCart_js.

Definition handleQuantityChange (productId newQuantity : Z)
    (st : CartProvider) : CartProvider :=
  if newQuantity <? 1 then removeFromCart productId st
  else updateQuantity productId newQuantity st.

Definition itemTotal (item : CartItem) : Qc :=
  (price item * number (quantity item))%Qc.

Definition itemOriginalTotal (item : CartItem) : Qc :=
  (orElse (originalPrice item) (price item) * number (quantity item))%Qc.

Definition itemDiscount (item : CartItem) : Qc :=
  (itemOriginalTotal item - itemTotal item)%Qc.

End ShoppingCart_js.

(** ** [parseInt(text, 10)] *)

(** The white space [parseInt] skips, among the ASCII characters. *)
Definition isWhiteSpace (c : ascii) : bool :=
  let n := N_of_ascii c in
  ((n =? 9) || (n =? 10) || (n =? 11) || (n =? 12) || (n =? 13) || (n =? 32))%N.

Fixpoint trimStart (s : string) : string :=
  match s with
  | String c rest => if isWhiteSpace c then trimStart rest else s
  | EmptyString => EmptyString
  end.

Definition digitValue (c : ascii) : option Z :=
  let n := N_of_ascii c in
  if ((48 <=? n) && (n <=? 57))%N then Some (Z.of_N (n - 48)) else None.

(** The longest prefix of decimal digits, read left to right; [acc] is
    [None] until a digit has been read. *)
Fixpoint parseDigits (s : string) (acc : option Z) : option Z :=
  match s with
  | String c rest =>
      match digitValue c with
      | Some d => parseDigits rest (Some (10 * default 0 acc + d))
      | None => acc
      end
  | EmptyString => acc
  end.

(** [None] is [NaN]. *)
Definition parseInt (text : string) : option Z :=
  match trimStart text with
  | String "-" rest => Z.opp <$> parseDigits rest None
  | String "+" rest => parseDigits rest None
  | trimmed => parseDigits trimmed None
  end.

(** components/ProductCard.js; the quantity handlers of
    components/ProductDetail.js are the same. *)
Module ProductCard_js.

(** The state cells [quantity] and [selectedColor]. *)
Record State := {
  quantityCell : Z;
  selectedColorCell : option string
}.

(** [maxQuantity]: [None] is [Infinity]. *)
Definition maxQuantity (product : Product) : option Z := stock product.

Definition isOutOfStock (product : Product) : bool :=
  match stock product with
  | Some s => s <=? 0
  | None => false
  end.

(** The quantity shown after [handleIncrement] has been rendered. *)
Definition handleIncrement (product : Product) (quantity : Z) : Z :=
  match maxQuantity product with
  | Some m => if quantity <? m then quantity + 1 else quantity
  | None => quantity + 1
  end.

Definition handleDecrement (quantity : Z) : Z :=
  if 1 <? quantity then quantity - 1 else quantity.

(** [text] is [e.target.value]. *)
Definition handleQuantityChange (product : Product) (text : string) (quantity : Z) : Z :=
  match parseInt text with
  | Some value =>
      if 0 <? value
      then match maxQuantity product with
           | Some m => Z.min value m
           | None => value
           end
      else quantity
  | None => quantity
  end.

(** [a || b] on strings: [null] and the empty string are falsy. *)
Definition firstTruthy (a b : option string) : option string :=
  if truthy a then a else if truthy b then b else None.

(** [product.colors && product.colors[0]] *)
Definition firstColor (product : Product) : option string :=
  match colors product with
  | Some (c :: _) => Some c
  | _ => None
  end.

Definition productToAdd (product : Product) (selectedColor : option string) : ProductToAdd :=
  {| product := product;
     selectedColor := firstTruthy selectedColor (firstColor product);
     selectedSize := None |}.

Definition handleAddToCart (product : Product) (card : State)
    (st : CartProvider) : CartProvider :=
  addToCart (productToAdd product (selectedColorCell card)) (quantityCell card) st.

(** The card once its mount effect has been rendered: quantity 1 and the
    first colour, if any, preselected. *)
Definition mounted (product : Product) : State :=
  {| quantityCell := 1; selectedColorCell := firstColor product |}.

End ProductCard_js.

(** ** A shopping session on the home page (app/page.js)

    The page shows one ProductCard per catalog product and the Cart sidebar
    with one CartItem per cart line.  A gesture is one click or one edit;
    the page is rendered after each. *)

Inductive CardGesture :=
| PressMinus
| PressPlus
| TypeQuantity (text : string)
| PickColor (color : string)
| PressAdd.

Inductive LineGesture :=
| LineMinus
| LinePlus
| LineTrash.

Inductive Gesture :=
| OnCard (i : nat) (g : CardGesture)
| OnLine (i : nat) (g : LineGesture)
| PressClearCart.

Record Page := {
  provider : CartProvider;
  cards : list ProductCard_js.State
}.

Definition openPage (PRODUCTS : list Product) : Page :=
  {| provider := initial; cards := map ProductCard_js.mounted PRODUCTS |}.

(** A gesture on the card of [product]; a disabled control does nothing.
    The 300 ms during which the add button stays disabled after a click
    ([isAdding]) are left out: they only take gestures away. *)
Definition cardGesture (product : Product) (g : CardGesture)
    (card : ProductCard_js.State) (st : CartProvider)
    : ProductCard_js.State * CartProvider :=
  let quantity := ProductCard_js.quantityCell card in
  let color := ProductCard_js.selectedColorCell card in
  let isOutOfStock := ProductCard_js.isOutOfStock product in
  match g with
  | PressMinus =>
      if (quantity <=? 1) || isOutOfStock then (card, st)
      else ({| ProductCard_js.quantityCell := ProductCard_js.handleDecrement quantity;
               ProductCard_js.selectedColorCell := color |}, st)
  | PressPlus =>
      if isOutOfStock
         || match stock product with Some s => s <=? quantity | None => false end
      then (card, st)
      else ({| ProductCard_js.quantityCell := ProductCard_js.handleIncrement product quantity;
               ProductCard_js.selectedColorCell := color |}, st)
  | TypeQuantity text =>
      if isOutOfStock then (card, st)
      else ({| ProductCard_js.quantityCell :=
                 ProductCard_js.handleQuantityChange product text quantity;
               ProductCard_js.selectedColorCell := color |}, st)
  | PickColor c =>
      if bool_decide (c ∈ default [] (colors product))
      then ({| ProductCard_js.quantityCell := quantity;
               ProductCard_js.selectedColorCell := Some c |}, st)
      else (card, st)
  | PressAdd =>
      if isOutOfStock then (card, st)
      else (card, ProductCard_js.handleAddToCart product card st)
  end.

(** A gesture on the CartItem of one cart line. *)
Definition lineGesture (item : CartItem) (g : LineGesture) (st : CartProvider) : CartProvider :=
  match g with
  | LineMinus => CartItem_js.handleQuantityChange item (quantity item - 1) st
  | LinePlus => CartItem_js.handleQuantityChange item (quantity item + 1) st
  | LineTrash => removeFromCart (id item) st
  end.

(** One gesture and the render that follows it.  A gesture on a card or a
    line that is not on the page does nothing. *)
Definition gesture (PRODUCTS : list Product) (pg : Page) (g : Gesture) : Page :=
  match g with
  | OnCard i cg =>
      match PRODUCTS !! i, cards pg !! i with
      | Some product, Some card =>
          let (card', st) := cardGesture product cg card (provider pg) in
          {| provider := render st; cards := <[i := card']> (cards pg) |}
      | _, _ => pg
      end
  | OnLine i lg =>
      match cartItems (provider pg) !! i with
      | Some item =>
          {| provider := render (lineGesture item lg (provider pg)); cards := cards pg |}
      | None => pg
      end
  | PressClearCart =>
      {| provider := render (clearCart (provider pg)); cards := cards pg |}
  end.

Definition session (PRODUCTS : list Product) (gs : list Gesture) : Page :=
  fold_left (gesture PRODUCTS) gs (openPage PRODUCTS).

(** ** Product detail and product page *)

(** [Math.round]: the nearest integer, halves rounded up. *)
Definition Math_round (x : Qc) : Z := Qfloor (x + Q2Qc (1 # 2))%Qc.

(** components/ProductDetail.js; the two image handlers are also those of
    components/ProductReviews.js. *)
Module ProductDetail_js.

(** The updater of [handlePreviousImage]. *)
Definition handlePreviousImage (productImages : list string) (prev : Z) : Z :=
  if 0 <? prev then prev - 1 else Z.of_nat (length productImages) - 1.

(** The updater of [handleNextImage]. *)
Definition handleNextImage (productImages : list string) (prev : Z) : Z :=
  if prev <? Z.of_nat (length productImages) - 1 then prev + 1 else 0.

Definition discountPercentage (product : Product) : Z :=
  match originalPrice product with
  | Some original =>
      if bool_decide (original <> Q2Qc 0) && bool_decide (price product < original)%Qc
      then Math_round ((original - price product) / original * number 100)%Qc
      else 0
  | None => 0
  end.

End ProductDetail_js.

(** The text of an integer in a template literal. *)
Definition numberToString (n : Z) : string :=
  NilEmpty.string_of_int (Z.to_int n).

(** The route parameter that [handleProductClick] of ProductCard puts in
    [/product/${product.id}]. *)
Definition productRouteParam (product : Product) : string :=
  numberToString (id product).

(** app/product/[id]/page.js: the product shown for the route parameter;
    [None] is the "Product Not Found" view. *)
Definition ProductPage (PRODUCTS : list Product) (params_id : string) : option Product :=
  match parseInt params_id with
  | Some productId => List.find (fun p : Product => id p =? productId) PRODUCTS
  | None => None
  end.

(** The value [parseDigits] reaches on the digits [d] from [acc]. *)
Fixpoint digitsFrom (d : Decimal.uint) (acc : Z) : Z :=
  match d with
  | Decimal.Nil => acc
  | Decimal.D0 l => digitsFrom l (10 * acc + 0)
  | Decimal.D1 l => digitsFrom l (10 * acc + 1)
  | Decimal.D2 l => digitsFrom l (10 * acc + 2)
  | Decimal.D3 l => digitsFrom l (10 * acc + 3)
  | Decimal.D4 l => digitsFrom l (10 * acc + 4)
  | Decimal.D5 l => digitsFrom l (10 * acc + 5)
  | Decimal.D6 l => digitsFrom l (10 * acc + 6)
  | Decimal.D7 l => digitsFrom l (10 * acc + 7)
  | Decimal.D8 l => digitsFrom l (10 * acc + 8)
  | Decimal.D9 l => digitsFrom l (10 * acc + 9)
  end.

(** The quantity a card may show for a product in stock: at least 1, and
    at most the stock when the product states one. *)
Definition quantityInRange (product : Product) (quantity : Z) : Prop :=
  1 <= quantity /\ match stock product with Some s => quantity <= s | None => True end.

(** No entry of [S] is for a product that is out of stock. *)
Definition allInStock (S : list CartItem) : Prop :=
  Forall (fun item : CartItem => ProductCard_js.isOutOfStock item = false) S.

(** What every page of a session satisfies. *)
Definition pageInvariant (PRODUCTS : list Product) (pg : Page) : Prop :=
  queued (provider pg) = []
  /\ length (cards pg) = length PRODUCTS
  /\ Forall (fun card => 1 <= ProductCard_js.quantityCell card) (cards pg)
  /\ positiveQuantities (cartItems (provider pg))
  /\ allInStock (cartItems (provider pg))
  /\ List.NoDup (productIds (cartItems (provider pg))).

(** [color] is no colour, or one of the colours the product comes in. *)
Definition offered (product : Product) (color : option string) : Prop :=
  match color with
  | Some c => c ∈ default [] (colors product)
  | None => True
  end.

(** The colour on a cart line is one the product comes in. *)
Definition offeredOnLine (prod : ProductToAdd) : Prop :=
  offered prod (selectedColor prod).

(** What every page of a session satisfies, as to colours. *)
Definition colourInvariant (PRODUCTS : list Product) (pg : Page) : Prop :=
  queued (provider pg) = []
  /\ Forall2 (fun product card => offered product (ProductCard_js.selectedColorCell card))
             PRODUCTS (cards pg)
  /\ Forall (fun item : CartItem => offeredOnLine item) (cartItems (provider pg)).

(** First render of the provider in a development build.  next.config.js
    sets [reactStrictMode], under which React runs the effects of a
    mounting component, and then runs them once more, before the updates
    they queued are rendered. *)
Definition strictMount `{JSON} (ls : Storage) : Completion (CartProvider * Storage) :=
  st1 ← loadEffect ls initial;
  ls1 ← saveEffect ls initial;
  st2 ← loadEffect ls1 st1;
  ls2 ← saveEffect ls1 st2;
  Normal (st2, ls2).

(** ** Loading a value that is not a snapshot *)

(** What [JSON.parse] can return for a text: an array of cart entries,
    [null], or another value that is not an array (a number, a string, a
    boolean, an object).  Arrays with elements that are not cart entries
    stay outside the data model. *)
Inductive Parsed :=
| Entries (items : list CartItem)
| ParsedNull
| ParsedOther.

(** The parser of the JavaScript runtime on any text. *)
Class JSONValues := {
  JSON_parse_value : string -> Completion Parsed
}.

(** The state cell [cartItems] once the update of the mount effect, if it
    made one, has been rendered: lines 48 and 53-62.  The effect hands
    whatever [JSON.parse] returned to [setCartItems]. *)
Definition loadValue `{JSONValues} (ls : Storage) : Completion Parsed :=
  tryCatch
    (savedCart ← getItem "shopping-cart" ls;
     if truthy savedCart
     then parsed ← JSON_parse_value (default "" savedCart);
          Normal parsed
     else Normal (Entries []))
    (fun error => Normal (Entries [])).


(** The parser on snapshots is the parser on any text, cut down to the
    texts that it reads as arrays of entries or rejects. *)
Definition restricts (typed : JSON) (values : JSONValues) : Prop :=
  forall text,
    @JSON_parse_value values text
    = match @JSON_parse typed text with
      | Normal items => Normal (Entries items)
      | Throw e => Throw e
      end.







(** ** Properties of the cart provider *)

Lemma perform_enqueues (m : Mutation) (st : CartProvider) :
  perform m st = setCartItems (updateOf m) st.
Proof.
  destruct m as [prod qty | productId | productId qty | ]; simpl; try reflexivity.
  unfold updateQuantity, removeFromCart. destruct (qty <=? 0); reflexivity.
Qed.

Lemma queued_after_calls (ms : list Mutation) (st : CartProvider) :
  fold_left (fun st m => perform m st) ms st
  = {| cartItems := cartItems st; queued := queued st ++ map updateOf ms |}.
Proof.
  revert st. induction ms as [| m ms IH]; intros st; simpl.
  - rewrite app_nil_r. destruct st; reflexivity.
  - rewrite IH, perform_enqueues. simpl. rewrite <- app_assoc. reflexivity.
Qed.

Lemma snapshotAfter_fold (ms : list Mutation) (S : list CartItem) :
  snapshotAfter ms S
  = fold_left (fun items m => applyUpdate (updateOf m) items) ms S.
Proof.
  unfold snapshotAfter. rewrite queued_after_calls. simpl.
  generalize S. induction ms as [| m ms IH]; intros S0; simpl; [reflexivity | apply IH].
Qed.

Lemma snapshotAfter_app (ms1 ms2 : list Mutation) (S : list CartItem) :
  snapshotAfter (ms1 ++ ms2) S = snapshotAfter ms2 (snapshotAfter ms1 S).
Proof. rewrite !snapshotAfter_fold. apply fold_left_app. Qed.

Lemma find_absent (productId : Z) (S : list CartItem) :
  absent productId S ->
  List.find (fun item : CartItem => id item =? productId) S = None.
Proof.
  induction 1 as [| item S Hne _ IH]; simpl; [reflexivity |].
  destruct (Z.eqb_spec (id item) productId); [contradiction | exact IH].
Qed.

Lemma map_absent (productId : Z) (f : CartItem -> CartItem) (S : list CartItem) :
  absent productId S ->
  map (fun item : CartItem => if id item =? productId then f item else item) S = S.
Proof.
  induction 1 as [| item S Hne _ IH]; simpl; [reflexivity |].
  destruct (Z.eqb_spec (id item) productId); [contradiction | now rewrite IH].
Qed.

Lemma entriesFor_absent (productId : Z) (S : list CartItem) :
  absent productId S -> entriesFor productId S = [].
Proof.
  induction 1 as [| item S Hne _ IH]; simpl; [reflexivity |].
  destruct (Z.eqb_spec (id item) productId); [contradiction | exact IH].
Qed.

(** *** Merge law *)

Lemma id_withQuantity (item : CartItem) (q : Z) : id (withQuantity item q) = id item.
Proof. reflexivity. Qed.

Lemma find_held (productId : Z) (S1 S2 : list CartItem) (e : CartItem) :
  id e = productId ->
  exists found,
    List.find (fun item : CartItem => id item =? productId) (S1 ++ e :: S2) = Some found.
Proof.
  intros He. induction S1 as [| item S1 IH]; simpl.
  - rewrite He, Z.eqb_refl. eauto.
  - destruct (id item =? productId); eauto.
Qed.

(** [add] on a snapshot that holds the product once: the entry stays where
    it is and only its quantity grows. *)
Lemma applyUpdate_add_held
    (S1 S2 : list CartItem) (e : CartItem) (P : ProductToAdd) (q : Z) :
  id e = id P -> absent (id P) S1 -> absent (id P) S2 ->
  applyUpdate (AddUpdater P q) (S1 ++ e :: S2)
  = S1 ++ withQuantity e (quantity e + q) :: S2.
Proof.
  intros He H1 H2. simpl.
  destruct (find_held (id P) S1 S2 e He) as [found ->].
  rewrite map_app. simpl.
  rewrite (map_absent _ _ _ H1), (map_absent _ _ _ H2), He, Z.eqb_refl.
  reflexivity.
Qed.

Lemma applyUpdate_add_absent (S : list CartItem) (P : ProductToAdd) (q : Z) :
  absent (id P) S ->
  applyUpdate (AddUpdater P q) S = S ++ [ {| added := P; quantity := q |} ].
Proof. intros Habs. simpl. now rewrite (find_absent _ _ Habs). Qed.

(** C1 (as amended): let [P'] have the id of [P] but possibly another price
    and other options, and let [m, n > 0].  On a snapshot [S] that holds no
    entry for the id, [add(P, m)] followed by [add(P', n)] leaves [S]
    followed by one entry for the id; that entry has quantity [m + n] and is
    otherwise the entry the first call created (price, selectedColor and
    selectedSize of [P]).  On a snapshot that holds one entry [e0] for the
    id, the two calls leave [e0] at its position with its quantity raised by
    [m + n] and everything else as captured. *)
Theorem addToCart_merges_into_first_entry
    (S : list CartItem) (P P' : ProductToAdd) (m n : Z) :
  id P' = id P -> 0 < m -> 0 < n ->
  (absent (id P) S ->
     snapshotAfter [Add P m] S = S ++ [ {| added := P; quantity := m |} ]
     /\ snapshotAfter [Add P m; Add P' n] S = S ++ [ {| added := P; quantity := m + n |} ]
     /\ entriesFor (id P) (snapshotAfter [Add P m; Add P' n] S)
        = [ {| added := P; quantity := m + n |} ])
  /\ (forall S1 e0 S2,
        S = S1 ++ e0 :: S2 -> id e0 = id P -> absent (id P) S1 -> absent (id P) S2 ->
        snapshotAfter [Add P m] S
        = S1 ++ {| added := added e0; quantity := quantity e0 + m |} :: S2
        /\ snapshotAfter [Add P m; Add P' n] S
           = S1 ++ {| added := added e0; quantity := quantity e0 + m + n |} :: S2).
Proof.
  intros Hid _ _. split.
  - intros Habs.
    assert (Hboth : snapshotAfter [Add P m; Add P' n] S
                    = S ++ [ {| added := P; quantity := m + n |} ]).
    { rewrite snapshotAfter_fold. cbn [fold_left updateOf].
      rewrite (applyUpdate_add_absent _ _ _ Habs).
      change (S ++ [ {| added := P; quantity := m |} ])
        with (S ++ {| added := P; quantity := m |} :: []).
      rewrite applyUpdate_add_held.
      - reflexivity.
      - simpl. congruence.
      - now rewrite Hid.
      - constructor. }
    repeat split; [| exact Hboth |].
    + rewrite snapshotAfter_fold. cbn [fold_left updateOf].
      now apply applyUpdate_add_absent.
    + rewrite Hboth. unfold entriesFor. rewrite List.filter_app.
      fold (entriesFor (id P) S). rewrite (entriesFor_absent _ _ Habs). simpl.
      now rewrite Z.eqb_refl.
  - intros S1 e0 S2 -> He H1 H2.
    rewrite !snapshotAfter_fold. cbn [fold_left updateOf].
    rewrite (applyUpdate_add_held S1 S2 e0 P m He H1 H2).
    split; [reflexivity |].
    rewrite applyUpdate_add_held.
    + reflexivity.
    + simpl. congruence.
    + now rewrite Hid.
    + now rewrite Hid.
Qed.

Lemma addToCart_merges_into_first_entry_witness :
  snapshotAfter [Add blackBoot 2; Add brownBootRepriced 3]
                [ {| added := plainSneaker; quantity := 1 |} ]
  = [ {| added := plainSneaker; quantity := 1 |}; {| added := blackBoot; quantity := 5 |} ].
Proof.
  apply (proj1 (proj2 (proj1 (addToCart_merges_into_first_entry
           [ {| added := plainSneaker; quantity := 1 |} ] blackBoot brownBootRepriced 2 3
           eq_refl ltac:(lia) ltac:(lia)) ltac:(repeat constructor; simpl; lia)))).
Defined.

(** C1 (as stated) fails on a snapshot that already holds the product: one
    boot in the cart, then [add(boot, 1); add(boot, 1)], gives one entry of
    quantity 3, not 2. *)
Lemma merge_law_fails_on_held_product :
  ~ mergeLawOnAnySnapshot [ {| added := blackBoot; quantity := 1 |} ]
                          blackBoot brownBootRepriced 1 1.
Proof.
  intros [e [Hentries Hq]].
  vm_compute in Hentries. inversion Hentries; subst e. simpl in Hq. lia.
Qed.

(** *** Quantity invariant *)

Lemma applyUpdate_keeps_positive (m : Mutation) (S : list CartItem) :
  addsAtLeastOne [m] -> positiveQuantities S ->
  positiveQuantities (applyUpdate (updateOf m) S).
Proof.
  unfold addsAtLeastOne, positiveQuantities. intros Hm HS.
  apply Forall_inv in Hm.
  destruct m as [prod qty | productId | productId qty | ]; simpl in *.
  - destruct (List.find _ S).
    + apply Forall_map. eapply Forall_impl; [exact HS |].
      intros item Hitem. simpl in *. destruct (id item =? id prod); simpl; lia.
    + apply Forall_app. split; [exact HS |]. repeat constructor. simpl. lia.
  - apply List.Forall_forall. intros item Hin. apply List.filter_In in Hin as [Hin _].
    revert item Hin. now apply List.Forall_forall.
  - destruct (Z.leb_spec qty 0); simpl.
    + apply List.Forall_forall. intros item Hin. apply List.filter_In in Hin as [Hin _].
      revert item Hin. now apply List.Forall_forall.
    + apply Forall_map. eapply Forall_impl; [exact HS |].
      intros item Hitem. simpl in *. destruct (id item =? productId); simpl; lia.
  - constructor.
Qed.

(** What the store does guarantee: as long as every [add] asks for at least
    one unit, every rendered snapshot keeps [quantity >= 1]. *)
Lemma positive_adds_keep_invariant (ms : list Mutation) (S : list CartItem) :
  addsAtLeastOne ms -> positiveQuantities S ->
  positiveQuantities (snapshotAfter ms S).
Proof.
  rewrite snapshotAfter_fold. revert S.
  induction ms as [| m ms IH]; intros S Hms HS; simpl; [exact HS |].
  apply IH.
  - now apply Forall_inv_tail in Hms.
  - apply applyUpdate_keeps_positive; [| exact HS].
    constructor; [now apply Forall_inv in Hms | constructor].
Qed.

(** C3 (the code at the failing input): [add(boot, 0)] on the empty cart is
    rendered as an entry of quantity 0, so the snapshot reached breaks
    [quantity >= 1]. *)
Theorem addToCart_zero_quantity_persisted :
  snapshotAfter [Add blackBoot 0] [] = [ {| added := blackBoot; quantity := 0 |} ]
  /\ ~ positiveQuantities (snapshotAfter [Add blackBoot 0] []).
Proof.
  split; [reflexivity |].
  intros Hpos. apply Forall_inv in Hpos. simpl in Hpos. lia.
Qed.

(** *** setQuantity *)

(** C5: [setQuantity(productId, q)] with [q <= 0] is the very call
    [remove(productId)], on every provider state and hence on every
    snapshot; with [q > 0] the snapshot keeps its length and its order, an
    entry for [productId] differs from the old one in its quantity only,
    which becomes [q], and every other entry is the old one. *)
Theorem updateQuantity_removes_or_replaces_in_place
    (S : list CartItem) (productId q : Z) :
  (q <= 0 ->
     (forall st, updateQuantity productId q st = removeFromCart productId st)
     /\ snapshotAfter [SetQuantity productId q] S = snapshotAfter [Remove productId] S)
  /\ (0 < q ->
        length (snapshotAfter [SetQuantity productId q] S) = length S
        /\ forall (i : nat) (item : CartItem),
             S !! i = Some item ->
             snapshotAfter [SetQuantity productId q] S !! i
             = Some (if decide (id item = productId)
                     then {| added := added item; quantity := q |}
                     else item)).
Proof.
  split; intros Hq.
  - assert (Hcall : forall st, updateQuantity productId q st = removeFromCart productId st).
    { intros st. unfold updateQuantity. destruct (Z.leb_spec q 0); [reflexivity | lia]. }
    split; [exact Hcall |].
    unfold snapshotAfter. simpl. now rewrite Hcall.
  - rewrite snapshotAfter_fold. simpl.
    destruct (Z.leb_spec q 0); [lia |]. simpl. split.
    + apply length_map.
    + intros i item Hi. rewrite list_lookup_fmap, Hi. simpl.
      destruct (Z.eqb_spec (id item) productId); case_decide; try contradiction; reflexivity.
Qed.

Lemma updateQuantity_removes_or_replaces_in_place_witness :
  snapshotAfter [SetQuantity 5 0]
                [ {| added := plainSneaker; quantity := 1 |}; {| added := blackBoot; quantity := 5 |} ]
  = snapshotAfter [Remove 5]
                [ {| added := plainSneaker; quantity := 1 |}; {| added := blackBoot; quantity := 5 |} ]
  /\ snapshotAfter [SetQuantity 7 4]
                [ {| added := plainSneaker; quantity := 1 |}; {| added := blackBoot; quantity := 5 |} ]
     !! 0%nat
     = Some {| added := plainSneaker; quantity := 4 |}.
Proof.
  split.
  - apply (proj2 (proj1 (updateQuantity_removes_or_replaces_in_place
             [ {| added := plainSneaker; quantity := 1 |}; {| added := blackBoot; quantity := 5 |} ]
             5 0) ltac:(lia))).
  - apply (proj2 (proj2 (updateQuantity_removes_or_replaces_in_place
             [ {| added := plainSneaker; quantity := 1 |}; {| added := blackBoot; quantity := 5 |} ]
             7 4) ltac:(lia)) 0%nat {| added := plainSneaker; quantity := 1 |}).
    reflexivity.
Defined.

(** C10: [setQuantity(productId, q)] with [q > 0] on a snapshot that holds
    no entry for [productId] renders the same snapshot: no entry is created
    and none is changed. *)
Theorem updateQuantity_absent_id_is_noop
    (S : list CartItem) (productId q : Z) :
  0 < q -> absent productId S ->
  snapshotAfter [SetQuantity productId q] S = S.
Proof.
  intros Hq Habs. rewrite snapshotAfter_fold. simpl.
  destruct (Z.leb_spec q 0); [lia |]. simpl.
  now apply map_absent.
Qed.

Lemma updateQuantity_absent_id_is_noop_witness :
  snapshotAfter [SetQuantity 9 3]
                [ {| added := plainSneaker; quantity := 1 |}; {| added := blackBoot; quantity := 5 |} ]
  = [ {| added := plainSneaker; quantity := 1 |}; {| added := blackBoot; quantity := 5 |} ].
Proof.
  apply updateQuantity_absent_id_is_noop.
  - lia.
  - repeat constructor; simpl; lia.
Defined.

(** *** Publication of a mutation *)

(** C4 (as amended): a mutating call only queues its update.  When the call
    returns, the snapshot and the aggregates read from the provider are
    still those of the current render; the render that follows shows the
    mutation applied to what that render would have shown without it. *)
Theorem mutation_is_published_by_next_render (m : Mutation) (st : CartProvider) :
  cartItems (perform m st) = cartItems st
  /\ getTotalItems (perform m st) = getTotalItems st
  /\ getTotalPrice (perform m st) = getTotalPrice st
  /\ isCartEmpty (perform m st) = isCartEmpty st
  /\ cartItems (render (perform m st))
     = applyUpdate (updateOf m) (cartItems (render st))
  /\ queued (render (perform m st)) = [].
Proof.
  rewrite perform_enqueues.
  repeat split.
  simpl. now rewrite fold_left_app.
Qed.

(** C4 (as stated) fails: right after [add(boot, 1)] returns on the freshly
    mounted provider, the snapshot read is still empty and the item count is
    still 0, while the next render shows one boot. *)
Lemma mutation_not_published_on_return :
  ~ publishedOnReturn (Add blackBoot 1) initial.
Proof.
  intros [Hitems _]. vm_compute in Hitems. discriminate Hitems.
Qed.

(** ** Properties of the persistence effects *)

Section Persistence.
Context `{runtime : JSON}.

Lemma loadEffect_never_throws (ls : Storage) (st : CartProvider) :
  exists st', loadEffect ls st = Normal st'.
Proof.
  unfold loadEffect, getItem. destruct (enabled ls); simpl; [| eauto].
  destruct (truthy (slots ls !! "shopping-cart")); simpl; [| eauto].
  destruct (JSON_parse _); simpl; eauto.
Qed.

Lemma saveEffect_never_throws (ls : Storage) (st : CartProvider) :
  exists ls', saveEffect ls st = Normal ls'.
Proof.
  unfold saveEffect, setItem. destruct (negb (enabled ls)); simpl; [eauto |].
  destruct (_ <? _)%nat; simpl; eauto.
Qed.

(** A failed write is dropped: the effect returns the storage as it was. *)
Lemma saveEffect_failure_is_dropped (ls : Storage) (st : CartProvider) (e : Exception) :
  setItem "shopping-cart" (JSON_stringify (cartItems st)) ls = Throw e ->
  saveEffect ls st = Normal ls.
Proof. intros Hthrow. unfold saveEffect. now rewrite Hthrow. Qed.

Lemma setItem_within_quota (key text : string) (ls : Storage) :
  enabled ls = true -> (String.length text <= quota ls)%nat ->
  setItem key text ls
  = Normal {| enabled := enabled ls; slots := <[key := text]> (slots ls); quota := quota ls |}.
Proof.
  intros Hon Hfits. unfold setItem. rewrite Hon.
  destruct (Nat.ltb_spec (quota ls) (String.length text)); [lia | reflexivity].
Qed.



(** A render that follows some calls commits them and writes the new
    snapshot to the slot. *)
Lemma rerender_saves_committed_snapshot (st : CartProvider) (ls : Storage) :
  enabled ls = true ->
  (String.length (JSON_stringify (cartItems (render st))) <= quota ls)%nat ->
  exists ls', rerender (st, ls) = Normal (render st, ls')
              /\ slots ls' !! "shopping-cart" = Some (JSON_stringify (cartItems (render st))).
Proof.
  intros Hon Hfits. unfold rerender, saveEffect. cbn [fst snd].
  rewrite (setItem_within_quota _ _ _ Hon Hfits).
  eexists. split; [reflexivity |]. apply lookup_insert_eq.
Qed.

(** The whole start-up: the provider mounts on a slot that holds the text of
    [S], writes the empty cart from its first render, and after the next
    render shows [S] and has written [S] back. *)
Lemma mount_restores_saved_snapshot (S : list CartItem) (ls : Storage) :
  enabled ls = true ->
  slots ls !! "shopping-cart" = Some (JSON_stringify S) ->
  JSON_stringify S <> "" ->
  JSON_parse (JSON_stringify S) = Normal S ->
  (String.length (JSON_stringify []) <= quota ls)%nat ->
  (String.length (JSON_stringify S) <= quota ls)%nat ->
  exists ls', (w ← mount ls; rerender w) = Normal (rendered S, ls')
              /\ slots ls' !! "shopping-cart" = Some (JSON_stringify S).
Proof.
  intros Hon Hslot Hne Hparse Hfits0 Hfits.
  assert (Hload : loadEffect ls initial = Normal (setCartItems (SetTo S) initial)).
  { unfold loadEffect, getItem. rewrite Hon. simpl. rewrite Hslot. simpl.
    destruct (String.eqb_spec (JSON_stringify S) ""); [contradiction |]. simpl.
    now rewrite Hparse. }
  unfold mount. rewrite Hload. unfold saveEffect at 1.
  rewrite (setItem_within_quota _ _ _ Hon Hfits0).
  cbn [mbind Completion_bind andThen tryCatch].
  match goal with
  | |- context [rerender (?st, ?l)] =>
      destruct (rerender_saves_committed_snapshot st l Hon Hfits) as [ls' [Hr Hs]]
  end.
  exists ls'. split; [exact Hr | exact Hs].
Qed.

End Persistence.



(** ** Properties of loading any stored text *)

Section LoadValue.
Context `{values : JSONValues}.


(** On texts that parse to snapshots or not at all, this is [load]. *)
Lemma loadValue_of_typed (typed : JSON) (ls : Storage) :
  restricts typed values ->
  loadValue ls = (S ← @load typed ls; Normal (Entries S)).
Proof.
  intros Hsame. unfold loadValue, load, loadEffect.
  destruct (getItem "shopping-cart" ls) as [savedCart | e];
    cbn [mbind Completion_bind andThen tryCatch]; [| reflexivity].
  destruct (truthy savedCart); [| reflexivity].
  rewrite Hsame. destruct (JSON_parse _); reflexivity.
Qed.

End LoadValue.



(** ** Properties of the order summary *)

(** C2 (the code at the failing input): the context object has neither
    [getOriginalTotalPrice] nor [getTotalDiscount]; ShoppingCart reads both
    as [undefined] and its call of the first throws, whatever the cart
    holds. *)
Theorem ShoppingCart_calls_missing_getters (st : CartProvider) :
  prop (value st) "getOriginalTotalPrice" = None
  /\ prop (value st) "getTotalDiscount" = None
  /\ ShoppingCart st = Throw (TypeError "getOriginalTotalPrice is not a function").
Proof. repeat split. Qed.

(** ** Properties of the catalog filter *)

Lemma strictEquals_spec (field : option string) (literal : string) :
  strictEquals field literal = bool_decide (field = Some literal).
Proof.
  unfold strictEquals. destruct field as [s |].
  - destruct (String.eqb_spec s literal); symmetry;
      [apply bool_decide_eq_true_2 | apply bool_decide_eq_false_2]; congruence.
  - symmetry. apply bool_decide_eq_false_2. discriminate.
Qed.

(** The filter reads the selector through [toLowerCase] only. *)
Lemma matchesCategory_lowercase (s1 s2 : string) (p : Product) :
  toLowerCase s1 = toLowerCase s2 -> matchesCategory s1 p = matchesCategory s2 p.
Proof. intros Heq. unfold matchesCategory. now rewrite Heq. Qed.

Lemma matchesCategory_default (categoryName : string) (p : Product) :
  ~ In (toLowerCase categoryName) specialSelectors ->
  matchesCategory categoryName p
  = if negb (truthy (category p)) then false
    else String.eqb (toLowerCase (default "" (category p))) (toLowerCase categoryName).
Proof.
  intros Hnot. unfold matchesCategory.
  repeat match goal with
  | |- context [String.eqb (toLowerCase categoryName) ?lit] =>
      destruct (String.eqb_spec (toLowerCase categoryName) lit) as [Heq | _];
      [exfalso; apply Hnot; rewrite Heq; simpl; tauto |]
  end.
  reflexivity.
Qed.

(** C8: when the selector lower-cases to "work boots & shoes" or to
    "work-boots-and-shoes", the filter returns, in catalog order, exactly
    the products whose category is the string "Work Boots & Shoes",
    compared exactly. *)
Theorem work_boots_selector_matches_exact_literal
    (categoryName : string) (PRODUCTS : list Product) :
  toLowerCase categoryName = "work boots & shoes"
  \/ toLowerCase categoryName = "work-boots-and-shoes" ->
  categoryProducts categoryName PRODUCTS
  = List.filter (fun p => bool_decide (category p = Some "Work Boots & Shoes")) PRODUCTS.
Proof.
  intros Hsel. unfold categoryProducts. apply List.filter_ext. intros p.
  unfold matchesCategory.
  destruct Hsel as [-> | ->]; simpl; apply strictEquals_spec.
Qed.

(** The catalog holds a boot of category "Work Boots & Shoes" and a sneaker
    of category "work boots & shoes": only the boot is returned. *)
Lemma work_boots_selector_matches_exact_literal_witness :
  categoryProducts "Work-Boots-And-Shoes" [sneaker; boot; unlabelled; boot]
  = [boot; boot].
Proof.
  rewrite (work_boots_selector_matches_exact_literal "Work-Boots-And-Shoes"
             [sneaker; boot; unlabelled; boot]).
  - reflexivity.
  - right. reflexivity.
Defined.

(** C9 (as amended): two selectors with the same lower-cased form select
    the same products, under every rule; "Sale & Clearance" and
    "sale-clearance" select the same products; and under the default rule a
    product is selected exactly when its category is a non-empty string
    equal to the selector up to letter case. *)
Theorem filter_is_selector_case_insensitive
    (s1 s2 : string) (PRODUCTS : list Product) :
  (toLowerCase s1 = toLowerCase s2 ->
     categoryProducts s1 PRODUCTS = categoryProducts s2 PRODUCTS)
  /\ categoryProducts "Sale & Clearance" PRODUCTS = categoryProducts "sale-clearance" PRODUCTS
  /\ (~ In (toLowerCase s1) specialSelectors ->
      forall p, matchesCategory s1 p = true
                <-> exists c, category p = Some c /\ c <> ""
                              /\ toLowerCase c = toLowerCase s1).
Proof.
  split; [| split].
  - intros Heq. unfold categoryProducts. apply List.filter_ext.
    intros p. now apply matchesCategory_lowercase.
  - reflexivity.
  - intros Hnot p. rewrite (matchesCategory_default _ _ Hnot).
    destruct (category p) as [c |]; simpl.
    + destruct (String.eqb_spec c "") as [-> | Hne]; simpl.
      * split; [discriminate |]. intros [c' [Hc [Hne _]]]. congruence.
      * destruct (String.eqb_spec (toLowerCase c) (toLowerCase s1)) as [Heq | Hneq].
        -- split; [eauto | reflexivity].
        -- split; [discriminate |]. intros [c' [Hc [_ Heq]]]. congruence.
    + split; [discriminate |]. intros [c' [Hc _]]. discriminate.
Qed.

Lemma filter_is_selector_case_insensitive_witness :
  categoryProducts "WORK Boots & shoes" [sneaker; boot; unlabelled]
  = categoryProducts "work boots & SHOES" [sneaker; boot; unlabelled]
  /\ matchesCategory "KIDS"
       {| id := 11; name := "Rain Boot"; price := Q2Qc (inject_Z 25); originalPrice := None;
          category := Some "Kids"; onSale := None; featured := None; stock := None;
          colors := None; sizes := None |} = true.
Proof.
  split.
  - apply (proj1 (filter_is_selector_case_insensitive
             "WORK Boots & shoes" "work boots & SHOES" [sneaker; boot; unlabelled])).
    reflexivity.
  - apply (proj2 (proj2 (filter_is_selector_case_insensitive "KIDS" "KIDS" []))).
    + simpl. intros H. repeat (destruct H as [H | H]; [discriminate H |]). exact H.
    + exists "Kids". repeat split. discriminate.
Defined.

(** C9 (as stated) fails under the default rule for the empty category:
    the product's category is the empty string, the selector is the empty
    string, they are equal, and the product is not selected. *)
Lemma default_rule_rejects_empty_category :
  ~ rule6MatchesDefined "" unlabelled.
Proof.
  intros Hrule.
  assert (Hsel : matchesCategory "" unlabelled = true).
  { apply (Hrule ltac:(simpl; intros H;
                        repeat (destruct H as [H | H]; [discriminate H |]); exact H)
                 "" eq_refl eq_refl). }
  vm_compute in Hsel. discriminate Hsel.
Qed.

(** ** The example scenarios of the design document *)

(** Scenario 1: the selector "Sale & Clearance" keeps the product on sale. *)
Example scenario_sale_filter :
  categoryProducts "Sale & Clearance" [sneaker; boot] = [boot].
Proof. reflexivity. Qed.

(** Scenario 2: two boots at 10, then three more. *)
Example scenario_add_twice :
  let first := render (addToCart blackBoot 2 initial) in
  let second := render (addToCart blackBoot 3 first) in
  getTotalItems first = 2 /\ getTotalPrice first = Q2Qc (inject_Z 20)
  /\ getTotalItems second = 5 /\ getTotalPrice second = Q2Qc (inject_Z 50).
Proof. repeat split; apply Qc_is_canon; reflexivity. Qed.

(** Scenario 3: setting the quantity to 0 empties that cart. *)
Example scenario_set_quantity_zero :
  let cart := render (addToCart blackBoot 3 (render (addToCart blackBoot 2 initial))) in
  let cleared := render (updateQuantity 5 0 cart) in
  cartItems cleared = [] /\ isCartEmpty cleared = true.
Proof. split; reflexivity. Qed.

(** Scenario 4: unparsable stored text loads as the empty cart. *)
Example scenario_corrupted_load :
  @load tabulatedJSON corruptedStorage = Normal [].
Proof. reflexivity. Qed.

(** ** Further properties of the cart provider *)

Lemma entriesFor_remove_same (productId : Z) (S : list CartItem) :
  entriesFor productId
    (List.filter (fun item : CartItem => negb (id item =? productId)) S) = [].
Proof.
  induction S as [| item S IH]; simpl; [reflexivity |].
  destruct (Z.eqb_spec (id item) productId) as [Heq | Hne]; simpl; [exact IH |].
  destruct (Z.eqb_spec (id item) productId); [contradiction | exact IH].
Qed.

Lemma entriesFor_remove_other (productId other : Z) (S : list CartItem) :
  other <> productId ->
  entriesFor other
    (List.filter (fun item : CartItem => negb (id item =? productId)) S)
  = entriesFor other S.
Proof.
  intros Hne. induction S as [| item S IH]; simpl; [reflexivity |].
  destruct (Z.eqb_spec (id item) productId) as [Heq | Hne']; simpl.
  - destruct (Z.eqb_spec (id item) other); [congruence | exact IH].
  - destruct (id item =? other); [now rewrite IH | exact IH].
Qed.

Lemma filter_sublist {A} (f : A -> bool) (l : list A) : sublist (List.filter f l) l.
Proof.
  induction l as [| x l IH]; simpl; [constructor |].
  destruct (f x); [now apply sublist_skip | now apply sublist_cons].
Qed.

Lemma filter_absent (productId : Z) (S : list CartItem) :
  absent productId S ->
  List.filter (fun item : CartItem => negb (id item =? productId)) S = S.
Proof.
  induction 1 as [| item S Hne _ IH]; simpl; [reflexivity |].
  destruct (Z.eqb_spec (id item) productId); [contradiction |]. simpl. now rewrite IH.
Qed.

Lemma filter_twice {A} (f : A -> bool) (l : list A) :
  List.filter f (List.filter f l) = List.filter f l.
Proof.
  induction l as [| x l IH]; simpl; [reflexivity |].
  destruct (f x) eqn:Hx; simpl; [rewrite Hx; now rewrite IH | exact IH].
Qed.

(** X1: [remove(productId)] deletes every entry of that id and nothing
    else: the entries of any other id are those of before, and the result
    is the old snapshot with entries left out, in the old order. *)
Theorem removeFromCart_deletes_only_that_id (S : list CartItem) (productId : Z) :
  entriesFor productId (snapshotAfter [Remove productId] S) = []
  /\ (forall other, other <> productId ->
        entriesFor other (snapshotAfter [Remove productId] S) = entriesFor other S)
  /\ sublist (snapshotAfter [Remove productId] S) S.
Proof.
  rewrite snapshotAfter_fold. simpl. repeat split.
  - apply entriesFor_remove_same.
  - intros other Hne. now apply entriesFor_remove_other.
  - apply filter_sublist.
Qed.

Lemma removeFromCart_deletes_only_that_id_witness :
  entriesFor 7 (snapshotAfter [Remove 5]
                  [ {| added := plainSneaker; quantity := 1 |}; {| added := blackBoot; quantity := 5 |} ])
  = [ {| added := plainSneaker; quantity := 1 |} ].
Proof.
  rewrite (proj1 (proj2 (removeFromCart_deletes_only_that_id
             [ {| added := plainSneaker; quantity := 1 |}; {| added := blackBoot; quantity := 5 |} ]
             5)) 7 ltac:(lia)).
  reflexivity.
Defined.

(** X2: [remove] is idempotent, and on a snapshot that holds no entry for
    the id it changes nothing. *)
Theorem removeFromCart_idempotent (S : list CartItem) (productId : Z) :
  snapshotAfter [Remove productId; Remove productId] S = snapshotAfter [Remove productId] S
  /\ (absent productId S -> snapshotAfter [Remove productId] S = S).
Proof.
  rewrite !snapshotAfter_fold. simpl. split.
  - apply filter_twice.
  - apply filter_absent.
Qed.

Lemma removeFromCart_idempotent_witness :
  snapshotAfter [Remove 9]
    [ {| added := plainSneaker; quantity := 1 |}; {| added := blackBoot; quantity := 5 |} ]
  = [ {| added := plainSneaker; quantity := 1 |}; {| added := blackBoot; quantity := 5 |} ].
Proof.
  apply (proj2 (removeFromCart_idempotent
                  [ {| added := plainSneaker; quantity := 1 |}; {| added := blackBoot; quantity := 5 |} ]
                  9)).
  repeat constructor; simpl; lia.
Defined.

Lemma fold_updates_of_calls (ms : list Mutation) (S : list CartItem) :
  fold_left (fun items u => applyUpdate u items) (map updateOf ms) S
  = fold_left (fun items m => applyUpdate (updateOf m) items) ms S.
Proof.
  revert S. induction ms as [| m ms IH]; intros S; simpl; [reflexivity | apply IH].
Qed.

(** X3: calls made in one batch and then rendered give the snapshot that
    rendering after every call would give; in particular a batch can be
    cut anywhere. *)
Theorem batched_calls_equal_sequential_renders
    (ms ms' : list Mutation) (st : CartProvider) :
  cartItems (render (fold_left (fun st m => perform m st) ms st))
  = snapshotAfter ms (cartItems (render st))
  /\ forall S, snapshotAfter (ms ++ ms') S = snapshotAfter ms' (snapshotAfter ms S).
Proof.
  split.
  - rewrite queued_after_calls, snapshotAfter_fold. simpl.
    rewrite fold_left_app. apply fold_updates_of_calls.
  - intros S. rewrite !snapshotAfter_fold. apply fold_left_app.
Qed.

(** X4: [clear] discards whatever was queued before it: the calls that
    follow it act on the empty cart. *)
Theorem clearCart_discards_earlier_calls (ms ms' : list Mutation) (S : list CartItem) :
  snapshotAfter (ms ++ Clear :: ms') S = snapshotAfter ms' []
  /\ snapshotAfter (ms ++ [Clear]) S = []
  /\ isCartEmpty (rendered (snapshotAfter (ms ++ [Clear]) S)) = true
  /\ getTotalItems (rendered (snapshotAfter (ms ++ [Clear]) S)) = 0.
Proof.
  assert (Hcut : forall tail, snapshotAfter (ms ++ Clear :: tail) S = snapshotAfter tail []).
  { intros tail. rewrite !snapshotAfter_fold, fold_left_app. reflexivity. }
  rewrite !Hcut. repeat split.
Qed.

Lemma productIds_map_quantity (f : CartItem -> Z) (productId : Z) (S : list CartItem) :
  productIds (map (fun item : CartItem =>
                     if id item =? productId then withQuantity item (f item) else item) S)
  = productIds S.
Proof.
  unfold productIds. rewrite List.map_map. apply List.map_ext.
  intros item. now destruct (id item =? productId).
Qed.

Lemma find_none_absent (productId : Z) (S : list CartItem) :
  List.find (fun item : CartItem => id item =? productId) S = None ->
  absent productId S.
Proof.
  induction S as [| item S IH]; simpl; intros Hfind; [constructor |].
  destruct (Z.eqb_spec (id item) productId); [discriminate |].
  constructor; [assumption | now apply IH].
Qed.

Lemma absent_not_in_ids (productId : Z) (S : list CartItem) :
  absent productId S -> ~ In productId (productIds S).
Proof.
  induction 1 as [| item S Hne _ IH]; simpl; [tauto |].
  intros [Heq | Hin]; [congruence | now apply IH].
Qed.

Lemma not_in_ids_absent (productId : Z) (S : list CartItem) :
  ~ In productId (productIds S) -> absent productId S.
Proof.
  induction S as [| item S IH]; simpl; intros Hnot; constructor.
  - intros Heq. apply Hnot. now left.
  - apply IH. intros Hin. apply Hnot. now right.
Qed.

Lemma productIds_remove_distinct (productId : Z) (S : list CartItem) :
  List.NoDup (productIds S) ->
  List.NoDup (productIds (List.filter (fun item : CartItem => negb (id item =? productId)) S)).
Proof.
  induction S as [| item S IH]; simpl; intros Hnd; [constructor |].
  apply List.NoDup_cons_iff in Hnd as [Hnot Hnd].
  destruct (negb (id item =? productId)); simpl; [| now apply IH].
  apply List.NoDup_cons; [| now apply IH].
  intros Hin. apply Hnot. unfold productIds in *.
  apply List.in_map_iff in Hin as [item' [Hid Hin]].
  apply List.filter_In in Hin as [Hin _].
  apply List.in_map_iff. eauto.
Qed.

Lemma applyUpdate_keeps_distinct_ids (m : Mutation) (S : list CartItem) :
  List.NoDup (productIds S) -> List.NoDup (productIds (applyUpdate (updateOf m) S)).
Proof.
  intros Hnd. destruct m as [prod qty | productId | productId qty | ]; simpl.
  - destruct (List.find _ S) eqn:Hfind.
    + now rewrite (productIds_map_quantity (fun item => quantity item + qty)).
    + unfold productIds. rewrite List.map_app. simpl.
      apply List.NoDup_app; repeat split.
      * exact Hnd.
      * repeat constructor. simpl. tauto.
      * intros x Hin [Hx | []]. subst x.
        now apply (absent_not_in_ids _ _ (find_none_absent _ _ Hfind)).
  - now apply productIds_remove_distinct.
  - destruct (qty <=? 0); simpl.
    + now apply productIds_remove_distinct.
    + now rewrite (productIds_map_quantity (fun _ => qty)).
  - constructor.
Qed.

(** X5: whatever the calls and their arguments, a snapshot with pairwise
    distinct product ids is rendered as a snapshot with pairwise distinct
    product ids; so every cart reached from the empty one holds at most one
    entry per product. *)
Theorem distinct_ids_are_preserved (ms : list Mutation) (S : list CartItem) :
  List.NoDup (productIds S) -> List.NoDup (productIds (snapshotAfter ms S)).
Proof.
  rewrite snapshotAfter_fold. revert S.
  induction ms as [| m ms IH]; intros S Hnd; simpl; [exact Hnd |].
  apply IH. now apply applyUpdate_keeps_distinct_ids.
Qed.

Lemma distinct_ids_are_preserved_witness :
  List.NoDup (productIds (snapshotAfter
    [Add blackBoot 2; Add plainSneaker (-4); Add brownBootRepriced 0; SetQuantity 7 3; Remove 9]
    [])).
Proof.
  apply (distinct_ids_are_preserved
    [Add blackBoot 2; Add plainSneaker (-4); Add brownBootRepriced 0; SetQuantity 7 3; Remove 9]
    []).
  constructor.
Defined.

(** *** Item count and total price *)

Lemma getTotalItems_acc (S : list CartItem) (a : Z) :
  fold_left (fun total (item : CartItem) => total + quantity item) S a
  = a + getTotalItems (rendered S).
Proof.
  unfold getTotalItems. simpl. revert a.
  induction S as [| item S IH]; intros a; simpl; [lia |].
  rewrite IH, (IH (0 + quantity item)). lia.
Qed.

Lemma getTotalItems_cons (item : CartItem) (S : list CartItem) :
  getTotalItems (rendered (item :: S)) = quantity item + getTotalItems (rendered S).
Proof. unfold getTotalItems at 1. simpl. apply getTotalItems_acc. Qed.

Lemma getTotalItems_app (S1 S2 : list CartItem) :
  getTotalItems (rendered (S1 ++ S2))
  = getTotalItems (rendered S1) + getTotalItems (rendered S2).
Proof.
  induction S1 as [| item S1 IH]; simpl; [reflexivity |].
  rewrite !getTotalItems_cons, IH. lia.
Qed.

Lemma getTotalItems_remove (productId : Z) (S : list CartItem) :
  getTotalItems (rendered (List.filter (fun item : CartItem => negb (id item =? productId)) S))
  = getTotalItems (rendered S) - getTotalItems (rendered (entriesFor productId S)).
Proof.
  induction S as [| item S IH]; simpl; [reflexivity |].
  destruct (id item =? productId); simpl; rewrite !getTotalItems_cons, ?IH; lia.
Qed.

Lemma getTotalItems_raise (productId q : Z) (S : list CartItem) :
  getTotalItems (rendered (map (fun item : CartItem =>
      if id item =? productId then withQuantity item (quantity item + q) else item) S))
  = getTotalItems (rendered S) + q * Z.of_nat (length (entriesFor productId S)).
Proof.
  induction S as [| item S IH]; simpl; [unfold getTotalItems; simpl; lia |].
  rewrite !getTotalItems_cons, IH.
  destruct (id item =? productId); simpl length; simpl quantity; lia.
Qed.

Lemma getTotalItems_set (productId q : Z) (S : list CartItem) :
  getTotalItems (rendered (map (fun item : CartItem =>
      if id item =? productId then withQuantity item q else item) S))
  = getTotalItems (rendered S) - getTotalItems (rendered (entriesFor productId S))
    + q * Z.of_nat (length (entriesFor productId S)).
Proof.
  induction S as [| item S IH]; simpl; [unfold getTotalItems; simpl; lia |].
  rewrite !getTotalItems_cons, IH.
  destruct (id item =? productId); simpl length; simpl quantity;
    rewrite ?getTotalItems_cons; lia.
Qed.

Lemma entriesFor_in_ids (productId : Z) (S : list CartItem) :
  In productId (productIds S) -> (1 <= length (entriesFor productId S))%nat.
Proof.
  induction S as [| item S IH]; simpl; [tauto |].
  destruct (Z.eqb_spec (id item) productId); simpl; [lia |].
  intros [Heq | Hin]; [contradiction | now apply IH].
Qed.

Lemma entriesFor_distinct (productId : Z) (S : list CartItem) :
  List.NoDup (productIds S) -> (length (entriesFor productId S) <= 1)%nat.
Proof.
  induction S as [| item S IH]; simpl; intros Hnd; [lia |].
  apply List.NoDup_cons_iff in Hnd as [Hnot Hnd].
  destruct (Z.eqb_spec (id item) productId) as [Heq | Hne]; simpl; [| now apply IH].
  rewrite Heq in Hnot.
  rewrite (entriesFor_absent _ _ (not_in_ids_absent _ _ Hnot)). simpl. lia.
Qed.

(** X6: on a snapshot with distinct product ids, the item count moves as a
    shopper expects: [add(P, q)] raises it by [q] whether or not [P] is
    held; [remove(i)] lowers it by the quantity held for [i]; and
    [setQuantity(i, q)] with [q > 0] replaces the quantity held for [i] by
    [q] when [i] is held and changes nothing otherwise. *)
Theorem getTotalItems_follows_mutations (S : list CartItem) :
  List.NoDup (productIds S) ->
  (forall P q,
     getTotalItems (rendered (snapshotAfter [Add P q] S)) = getTotalItems (rendered S) + q)
  /\ (forall i,
        getTotalItems (rendered (snapshotAfter [Remove i] S))
        = getTotalItems (rendered S) - getTotalItems (rendered (entriesFor i S)))
  /\ (forall i q, 0 < q ->
        getTotalItems (rendered (snapshotAfter [SetQuantity i q] S))
        = getTotalItems (rendered S) - getTotalItems (rendered (entriesFor i S))
          + (if decide (i ∈ productIds S) then q else 0)).
Proof.
  intros Hnd. repeat split.
  - intros P q. rewrite snapshotAfter_fold. simpl.
    destruct (List.find _ S) eqn:Hfind.
    + rewrite getTotalItems_raise.
      pose proof (entriesFor_distinct (id P) S Hnd) as Hle.
      assert (Hin : In (id P) (productIds S)).
      { apply List.find_some in Hfind as [Hin Heq].
        apply Z.eqb_eq in Heq. rewrite <- Heq. unfold productIds.
        apply List.in_map_iff. eauto. }
      pose proof (entriesFor_in_ids _ _ Hin).
      replace (length (entriesFor (id P) S)) with 1%nat by lia. lia.
    + rewrite getTotalItems_app. unfold getTotalItems at 2. simpl. lia.
  - intros i. rewrite snapshotAfter_fold. simpl. apply getTotalItems_remove.
  - intros i q Hq. rewrite snapshotAfter_fold. simpl.
    destruct (Z.leb_spec q 0); [lia |]. simpl. rewrite getTotalItems_set.
    pose proof (entriesFor_distinct i S Hnd) as Hle.
    destruct (decide (i ∈ productIds S)) as [Hin | Hnot].
    + apply list_elem_of_In in Hin. pose proof (entriesFor_in_ids _ _ Hin).
      replace (length (entriesFor i S)) with 1%nat by lia. lia.
    + rewrite list_elem_of_In in Hnot.
      rewrite (entriesFor_absent _ _ (not_in_ids_absent _ _ Hnot)). simpl. lia.
Qed.

Lemma getTotalItems_follows_mutations_witness :
  getTotalItems (rendered (snapshotAfter [Add brownBootRepriced 3]
     [ {| added := plainSneaker; quantity := 1 |}; {| added := blackBoot; quantity := 5 |} ]))
  = 6 + 3.
Proof.
  apply (proj1 (getTotalItems_follows_mutations
     [ {| added := plainSneaker; quantity := 1 |}; {| added := blackBoot; quantity := 5 |} ]
     ltac:(repeat constructor; simpl; intuition lia)) brownBootRepriced 3).
Defined.

Lemma getTotalPrice_acc (S : list CartItem) (a : Qc) :
  fold_left (fun total (item : CartItem) =>
               (total + price item * Q2Qc (inject_Z (quantity item)))%Qc) S a
  = (a + fold_right Qcplus (Q2Qc 0) (map CartItem_js.getSubtotal S))%Qc.
Proof.
  revert a. induction S as [| item S IH]; intros a; simpl.
  - ring.
  - rewrite IH. unfold CartItem_js.getSubtotal, number. ring.
Qed.

(** X7: the total that the cart shows is the sum of the subtotals that its
    lines show (CartItem's [getSubtotal], ShoppingCart's [itemTotal]). *)
Theorem getTotalPrice_is_sum_of_subtotals (st : CartProvider) :
  getTotalPrice st
  = fold_right Qcplus (Q2Qc 0) (map CartItem_js.getSubtotal (cartItems st))
  /\ getTotalPrice st
     = fold_right Qcplus (Q2Qc 0) (map ShoppingCart_js.itemTotal (cartItems st)).
Proof.
  assert (H : getTotalPrice st
              = fold_right Qcplus (Q2Qc 0) (map CartItem_js.getSubtotal (cartItems st))).
  { unfold getTotalPrice. rewrite getTotalPrice_acc. ring. }
  split; [exact H | exact H].
Qed.

(** ** Properties of the cart lines (CartItem.js, ShoppingCart.js) *)

Lemma entriesFor_of_member (item : CartItem) (S : list CartItem) :
  In item S -> List.NoDup (productIds S) -> entriesFor (id item) S = [item].
Proof.
  induction S as [| x S IH]; simpl; [tauto |].
  intros Hin Hnd. apply List.NoDup_cons_iff in Hnd as [Hnot Hnd].
  destruct Hin as [-> | Hin].
  - rewrite Z.eqb_refl.
    now rewrite (entriesFor_absent _ _ (not_in_ids_absent _ _ Hnot)).
  - destruct (Z.eqb_spec (id x) (id item)) as [Heq | Hne]; [| now apply IH].
    exfalso. apply Hnot. rewrite Heq. unfold productIds.
    apply List.in_map_iff. eauto.
Qed.

Lemma entriesFor_set (productId q : Z) (S : list CartItem) :
  entriesFor productId
    (map (fun item : CartItem => if id item =? productId then withQuantity item q else item) S)
  = map (fun item => withQuantity item q) (entriesFor productId S).
Proof.
  induction S as [| x S IH]; simpl; [reflexivity |].
  destruct (id x =? productId) eqn:Hx; simpl; rewrite ?Hx, IH; reflexivity.
Qed.

(** X8: the handlers behind the "-" and "+" buttons of a cart line are
    [updateQuantity] itself, their own [newQuantity < 1] test being the
    [quantity <= 0] test of the provider.  On a cart with distinct ids,
    "-" on a line of quantity 1 or less removes the line and "-" on a
    larger line lowers that line's quantity by one; "+" on a line of
    quantity 0 or more raises that line's quantity by one, and "+" on a
    line of negative quantity removes the line.  A line that stays keeps
    everything else of it. *)
Theorem line_buttons_step_quantity (S : list CartItem) (item : CartItem) :
  In item S -> List.NoDup (productIds S) ->
  (forall q st,
     CartItem_js.handleQuantityChange item q st = updateQuantity (id item) q st
     /\ ShoppingCart_js.handleQuantityChange (id item) q st = updateQuantity (id item) q st)
  /\ (quantity item <= 1 ->
        entriesFor (id item) (cartItems (render (lineGesture item LineMinus (rendered S)))) = [])
  /\ (1 < quantity item ->
        entriesFor (id item) (cartItems (render (lineGesture item LineMinus (rendered S))))
        = [ {| added := added item; quantity := quantity item - 1 |} ])
  /\ (0 <= quantity item ->
        entriesFor (id item) (cartItems (render (lineGesture item LinePlus (rendered S))))
        = [ {| added := added item; quantity := quantity item + 1 |} ])
  /\ (quantity item < 0 ->
        entriesFor (id item) (cartItems (render (lineGesture item LinePlus (rendered S)))) = []).
Proof.
  intros Hin Hnd.
  assert (Hsame : forall q st,
            CartItem_js.handleQuantityChange item q st = updateQuantity (id item) q st).
  { intros q st. unfold CartItem_js.handleQuantityChange, updateQuantity.
    destruct (Z.ltb_spec q 1), (Z.leb_spec q 0); try reflexivity; lia. }
  repeat split.
  - apply Hsame.
  - unfold ShoppingCart_js.handleQuantityChange, updateQuantity.
    destruct (Z.ltb_spec q 1), (Z.leb_spec q 0); try reflexivity; lia.
  - intros Hq. simpl lineGesture. rewrite Hsame. unfold updateQuantity.
    destruct (Z.leb_spec (quantity item - 1) 0); [| lia].
    simpl. apply entriesFor_remove_same.
  - intros Hq. simpl lineGesture. rewrite Hsame. unfold updateQuantity.
    destruct (Z.leb_spec (quantity item - 1) 0); [lia |].
    simpl. now rewrite entriesFor_set, (entriesFor_of_member _ _ Hin Hnd).
  - intros Hq. simpl lineGesture. rewrite Hsame. unfold updateQuantity.
    destruct (Z.leb_spec (quantity item + 1) 0); [lia |].
    simpl. now rewrite entriesFor_set, (entriesFor_of_member _ _ Hin Hnd).
  - intros Hq. simpl lineGesture. rewrite Hsame. unfold updateQuantity.
    destruct (Z.leb_spec (quantity item + 1) 0); [| lia].
    simpl. apply entriesFor_remove_same.
Qed.

Lemma line_buttons_step_quantity_witness :
  entriesFor 5 (cartItems (render
    (lineGesture {| added := blackBoot; quantity := 5 |} LineMinus
       (rendered [ {| added := plainSneaker; quantity := 1 |};
                   {| added := blackBoot; quantity := 5 |} ]))))
  = [ {| added := blackBoot; quantity := 4 |} ].
Proof.
  apply (proj1 (proj2 (proj2 (line_buttons_step_quantity
      [ {| added := plainSneaker; quantity := 1 |}; {| added := blackBoot; quantity := 5 |} ]
      {| added := blackBoot; quantity := 5 |}
      ltac:(simpl; tauto)
      ltac:(repeat constructor; simpl; intuition lia))))).
  simpl. lia.
Defined.

Lemma number_positive (z : Z) : 0 < z -> (Q2Qc 0 < number z)%Qc.
Proof.
  intros Hz. unfold Qclt, number, Q2Qc. cbn [this]. rewrite !Qred_correct.
  unfold Qlt. simpl. lia.
Qed.

(** X9: the discount ShoppingCart shows on a line.  Without an original
    price, or with an original price of 0, it is 0; otherwise it is
    (original price - price) x quantity, which for a positive quantity is
    positive exactly when the original price is above the price - and is
    negative, not floored, when it is below. *)
Theorem itemDiscount_by_original_price (item : CartItem) :
  (originalPrice item = None \/ originalPrice item = Some (Q2Qc 0) ->
     ShoppingCart_js.itemDiscount item = Q2Qc 0)
  /\ (forall o, originalPrice item = Some o -> o <> Q2Qc 0 ->
        ShoppingCart_js.itemDiscount item = ((o - price item) * number (quantity item))%Qc
        /\ (0 < quantity item ->
              ((Q2Qc 0 < ShoppingCart_js.itemDiscount item)%Qc <-> (price item < o)%Qc)
              /\ ((ShoppingCart_js.itemDiscount item < Q2Qc 0)%Qc <-> (o < price item)%Qc))).
Proof.
  unfold ShoppingCart_js.itemDiscount, ShoppingCart_js.itemOriginalTotal,
    ShoppingCart_js.itemTotal, orElse.
  split.
  - intros [-> | ->]; [| rewrite decide_True by reflexivity]; ring.
  - intros o -> Ho. rewrite decide_False by exact Ho.
    assert (Heq : (o * number (quantity item) - price item * number (quantity item)
                   = (o - price item) * number (quantity item))%Qc) by ring.
    rewrite Heq. split; [reflexivity |].
    intros Hq. pose proof (number_positive _ Hq) as Hpos.
    assert (Hzero : (Q2Qc 0 = Q2Qc 0 * number (quantity item))%Qc) by ring.
    split.
    + rewrite Hzero at 1. rewrite <- (Qcmult_lt_mono_pos_r _ _ _ Hpos).
      rewrite (Qclt_minus_iff (price item) o). reflexivity.
    + rewrite Hzero at 1. rewrite <- (Qcmult_lt_mono_pos_r _ _ _ Hpos).
      rewrite (Qclt_minus_iff (o - price item) (Q2Qc 0)).
      rewrite (Qclt_minus_iff o (price item)).
      assert (Hneg : (Q2Qc 0 + - (o - price item) = price item + - o)%Qc) by ring.
      now rewrite Hneg.
Qed.

Lemma itemDiscount_by_original_price_witness :
  ShoppingCart_js.itemDiscount {| added := plainSneaker; quantity := 3 |} = Q2Qc 0.
Proof.
  apply (proj1 (itemDiscount_by_original_price {| added := plainSneaker; quantity := 3 |})).
  left. reflexivity.
Defined.

(** ** Properties of the product card (ProductCard.js, ProductDetail.js) *)

(** X10: for a product in stock, the three quantity handlers keep the
    quantity between 1 and the stock.  "+" stops at the stock, "-" stops at
    1, and an edit is taken only when [parseInt] reads a positive number
    from it, capped at the stock; any other text leaves the quantity as it
    was. *)
Theorem quantity_handlers_stay_in_range (product : Product) (quantity : Z) (text : string) :
  ProductCard_js.isOutOfStock product = false ->
  quantityInRange product quantity ->
  quantityInRange product (ProductCard_js.handleIncrement product quantity)
  /\ quantityInRange product (ProductCard_js.handleDecrement quantity)
  /\ quantityInRange product (ProductCard_js.handleQuantityChange product text quantity)
  /\ (forall value, parseInt text = Some value -> 0 < value ->
        ProductCard_js.handleQuantityChange product text quantity
        = match stock product with Some s => Z.min value s | None => value end)
  /\ ((parseInt text = None \/ exists value, parseInt text = Some value /\ value <= 0) ->
        ProductCard_js.handleQuantityChange product text quantity = quantity).
Proof.
  unfold quantityInRange, ProductCard_js.isOutOfStock, ProductCard_js.handleIncrement,
    ProductCard_js.handleDecrement, ProductCard_js.handleQuantityChange,
    ProductCard_js.maxQuantity.
  intros Hstock [Hlow Hhigh].
  repeat split.
  - destruct (stock product) as [s |]; [destruct (Z.ltb_spec quantity s) |]; lia.
  - destruct (stock product) as [s |]; [destruct (Z.ltb_spec quantity s) |]; [lia | lia | exact I].
  - destruct (Z.ltb_spec 1 quantity); lia.
  - destruct (stock product) as [s |]; [| exact I].
    destruct (Z.ltb_spec 1 quantity); lia.
  - destruct (parseInt text) as [value |]; [| exact Hlow].
    destruct (Z.ltb_spec 0 value); [| exact Hlow].
    destruct (stock product) as [s |]; [| lia].
    apply Z.leb_gt in Hstock. lia.
  - destruct (parseInt text) as [value |]; [| exact Hhigh].
    destruct (Z.ltb_spec 0 value); [| exact Hhigh].
    destruct (stock product) as [s |]; [lia | exact I].
  - intros value -> Hvalue. destruct (Z.ltb_spec 0 value); [reflexivity | lia].
  - intros [-> | [value [-> Hvalue]]]; [reflexivity |].
    destruct (Z.ltb_spec 0 value); [lia | reflexivity].
Qed.

Lemma quantity_handlers_stay_in_range_witness :
  ProductCard_js.handleQuantityChange boot "  12 pairs" 3 = 8.
Proof.
  rewrite (proj1 (proj2 (proj2 (proj2 (quantity_handlers_stay_in_range boot 3 "  12 pairs"
             eq_refl ltac:(unfold quantityInRange; simpl; lia)))))
             12 eq_refl ltac:(lia)).
  reflexivity.
Defined.

(** ** Properties of a shopping session (app/page.js) *)

Lemma render_after_call (m : Mutation) (st : CartProvider) :
  queued st = [] ->
  render (perform m st) = rendered (applyUpdate (updateOf m) (cartItems st)).
Proof.
  intros Hq. rewrite perform_enqueues. unfold render, setCartItems, rendered.
  simpl. now rewrite Hq.
Qed.

Lemma render_idle (st : CartProvider) : queued st = [] -> render st = st.
Proof. intros Hq. destruct st as [items q]. simpl in *. subst q. reflexivity. Qed.

Lemma applyUpdate_keeps_in_stock (m : Mutation) (S : list CartItem) :
  match m with
  | Add prod _ => ProductCard_js.isOutOfStock prod = false
  | _ => True
  end ->
  allInStock S -> allInStock (applyUpdate (updateOf m) S).
Proof.
  unfold allInStock. intros Hm HS.
  assert (Hfilter : forall f, Forall (fun item : CartItem => ProductCard_js.isOutOfStock item = false)
                                     (List.filter f S)).
  { intros f. apply List.Forall_forall. intros item Hin.
    apply List.filter_In in Hin as [Hin _]. revert item Hin. now apply List.Forall_forall. }
  assert (Hmap : forall (g : CartItem -> Z) i,
            Forall (fun item : CartItem => ProductCard_js.isOutOfStock item = false)
                   (map (fun item : CartItem =>
                           if id item =? i then withQuantity item (g item) else item) S)).
  { intros g i. apply Forall_map. eapply Forall_impl; [exact HS |].
    intros item Hitem. simpl in *. now destruct (id item =? i). }
  destruct m as [prod qty | productId | productId qty | ]; simpl.
  - destruct (List.find _ S).
    + apply (Hmap (fun item => quantity item + qty)).
    + apply Forall_app. split; [exact HS |]. repeat constructor. exact Hm.
  - apply Hfilter.
  - destruct (qty <=? 0); simpl; [apply Hfilter | apply (Hmap (fun _ => qty))].
  - constructor.
Qed.

Lemma call_keeps_cart_invariants (m : Mutation) (st : CartProvider) :
  match m with
  | Add prod qty => 1 <= qty /\ ProductCard_js.isOutOfStock prod = false
  | _ => True
  end ->
  queued st = [] ->
  positiveQuantities (cartItems st) ->
  allInStock (cartItems st) ->
  List.NoDup (productIds (cartItems st)) ->
  queued (render (perform m st)) = []
  /\ positiveQuantities (cartItems (render (perform m st)))
  /\ allInStock (cartItems (render (perform m st)))
  /\ List.NoDup (productIds (cartItems (render (perform m st)))).
Proof.
  intros Hm Hq Hpos Hstock Hnd. rewrite (render_after_call _ _ Hq). simpl.
  repeat split.
  - apply applyUpdate_keeps_positive; [| exact Hpos].
    constructor; [| constructor]. destruct m; try exact I. tauto.
  - apply applyUpdate_keeps_in_stock; [| exact Hstock].
    destruct m; try exact I. tauto.
  - now apply applyUpdate_keeps_distinct_ids.
Qed.

Lemma cardGesture_cases (product : Product) (g : CardGesture)
    (card : ProductCard_js.State) (st : CartProvider) :
  1 <= ProductCard_js.quantityCell card ->
  exists card' st',
    cardGesture product g card st = (card', st')
    /\ 1 <= ProductCard_js.quantityCell card'
    /\ (st' = st
        \/ (ProductCard_js.isOutOfStock product = false
            /\ st' = perform (Add (ProductCard_js.productToAdd product
                                     (ProductCard_js.selectedColorCell card))
                                  (ProductCard_js.quantityCell card)) st)).
Proof.
  intros Hq. unfold cardGesture. cbv zeta.
  destruct g as [| | text | c |].
  - destruct ((ProductCard_js.quantityCell card <=? 1) || ProductCard_js.isOutOfStock product);
      (eexists _, _; split; [reflexivity |]; split; [| now left]); [exact Hq |].
    simpl. unfold ProductCard_js.handleDecrement.
    destruct (Z.ltb_spec 1 (ProductCard_js.quantityCell card)); lia.
  - destruct (ProductCard_js.isOutOfStock product || _);
      (eexists _, _; split; [reflexivity |]; split; [| now left]); [exact Hq |].
    simpl. unfold ProductCard_js.handleIncrement, ProductCard_js.maxQuantity.
    destruct (stock product) as [s |]; [| lia].
    destruct (Z.ltb_spec (ProductCard_js.quantityCell card) s); lia.
  - destruct (ProductCard_js.isOutOfStock product) eqn:Hout;
      (eexists _, _; split; [reflexivity |]; split; [| now left]); [exact Hq |].
    simpl. unfold ProductCard_js.handleQuantityChange, ProductCard_js.maxQuantity.
    destruct (parseInt text) as [value |]; [| exact Hq].
    destruct (Z.ltb_spec 0 value); [| exact Hq].
    unfold ProductCard_js.isOutOfStock in Hout.
    destruct (stock product) as [s |]; [| lia].
    apply Z.leb_gt in Hout. lia.
  - destruct (bool_decide _); eexists _, _; (split; [reflexivity |]);
      (split; [exact Hq | now left]).
  - destruct (ProductCard_js.isOutOfStock product) eqn:Hout;
      (eexists _, _; split; [reflexivity |]; split; [exact Hq |]); [now left |].
    right. now split.
Qed.

Lemma gesture_keeps_invariant (PRODUCTS : list Product) (pg : Page) (g : Gesture) :
  pageInvariant PRODUCTS pg -> pageInvariant PRODUCTS (gesture PRODUCTS pg g).
Proof.
  intros (Hq & Hlen & Hcards & Hpos & Hstock & Hnd).
  destruct g as [i cg | i lg |]; simpl.
  - destruct (PRODUCTS !! i) as [product |] eqn:Hp; [| now repeat split].
    destruct (cards pg !! i) as [card |] eqn:Hc; [| now repeat split].
    assert (Hcard : 1 <= ProductCard_js.quantityCell card).
    { revert Hc. apply (proj1 (Forall_lookup _ _) Hcards). }
    destruct (cardGesture_cases product cg card (provider pg) Hcard)
      as (card' & st' & -> & Hcard' & Hst).
    assert (Hcards' : Forall (fun card => 1 <= ProductCard_js.quantityCell card)
                             (<[i := card']> (cards pg))).
    { apply Forall_insert; assumption. }
    destruct Hst as [-> | [Hin ->]].
    + rewrite (render_idle _ Hq). unfold pageInvariant. simpl.
      rewrite length_insert. now repeat split.
    + destruct (call_keeps_cart_invariants
                  (Add (ProductCard_js.productToAdd product (ProductCard_js.selectedColorCell card))
                       (ProductCard_js.quantityCell card))
                  (provider pg)) as (Hq' & Hpos' & Hstock' & Hnd'); try assumption.
      { split; [exact Hcard | exact Hin]. }
      unfold pageInvariant. simpl provider. simpl cards.
      rewrite length_insert. now repeat split.
  - destruct (cartItems (provider pg) !! i) as [item |] eqn:Hi; [| now repeat split].
    assert (Hitem : 1 <= quantity item).
    { revert Hi. apply (proj1 (Forall_lookup _ _) Hpos). }
    assert (Hcall : exists m, lineGesture item lg (provider pg) = perform m (provider pg)
                              /\ match m with Add _ _ => False | _ => True end).
    { destruct lg; simpl.
      - exists (SetQuantity (id item) (quantity item - 1)). split; [| exact I].
        unfold CartItem_js.handleQuantityChange. simpl. unfold updateQuantity.
        destruct (Z.ltb_spec (quantity item - 1) 1), (Z.leb_spec (quantity item - 1) 0);
          try reflexivity; lia.
      - exists (SetQuantity (id item) (quantity item + 1)). split; [| exact I].
        unfold CartItem_js.handleQuantityChange. simpl.
        destruct (Z.ltb_spec (quantity item + 1) 1); [lia | reflexivity].
      - exists (Remove (id item)). now split. }
    destruct Hcall as (m & -> & Hm).
    destruct (call_keeps_cart_invariants m (provider pg)) as (Hq' & Hpos' & Hstock' & Hnd');
      try assumption.
    { destruct m; try exact I. contradiction. }
    unfold pageInvariant. simpl. now repeat split.
  - destruct (call_keeps_cart_invariants Clear (provider pg)) as (Hq' & Hpos' & Hstock' & Hnd');
      try assumption; [exact I |].
    unfold pageInvariant. simpl provider. simpl cards. now repeat split.
Qed.

(** X11: whatever a shopper clicks and types on the home page - the
    quantity controls, colour swatches and "Add to Cart" of any card, the
    "-", "+" and trash buttons of any cart line, "Clear Cart" - the cart
    that is rendered holds only quantities of at least 1, only products
    that are in stock, and at most one line per product id; and no card
    ever shows a quantity below 1. *)
Theorem session_keeps_cart_well_formed (PRODUCTS : list Product) (gs : list Gesture) :
  positiveQuantities (cartItems (provider (session PRODUCTS gs)))
  /\ allInStock (cartItems (provider (session PRODUCTS gs)))
  /\ List.NoDup (productIds (cartItems (provider (session PRODUCTS gs))))
  /\ Forall (fun card => 1 <= ProductCard_js.quantityCell card)
            (cards (session PRODUCTS gs)).
Proof.
  assert (Hinv : pageInvariant PRODUCTS (session PRODUCTS gs)).
  { unfold session.
    assert (Hopen : pageInvariant PRODUCTS (openPage PRODUCTS)).
    { unfold pageInvariant, openPage. simpl. rewrite length_map.
      repeat split; try constructor.
      apply Forall_map. apply Forall_true. intros product. simpl. lia. }
    revert Hopen. generalize (openPage PRODUCTS).
    induction gs as [| g gs IH]; intros pg Hpg; simpl; [exact Hpg |].
    apply IH. now apply gesture_keeps_invariant. }
  destruct Hinv as (_ & _ & Hcards & Hpos & Hstock & Hnd). now repeat split.
Qed.

(** ** Further properties of the persistence effects *)

Section PersistenceLifecycle.
Context `{runtime : JSON}.

(** X12: no failure of the storage or of the parser reaches the provider.
    Mounting and re-rendering always complete; the re-render shows the
    committed queue whatever the storage does; and with storage disabled
    the provider starts empty and the storage is left as it was. *)
Theorem persistence_failures_are_contained (st : CartProvider) (ls : Storage) :
  (exists st' ls', mount ls = Normal (st', ls'))
  /\ (exists ls', rerender (st, ls) = Normal (render st, ls'))
  /\ (enabled ls = false ->
        mount ls = Normal (initial, ls) /\ rerender (st, ls) = Normal (render st, ls)).
Proof.
  repeat split.
  - unfold mount.
    destruct (loadEffect_never_throws ls initial) as [st' ->].
    destruct (saveEffect_never_throws ls initial) as [ls' ->].
    simpl. eauto.
  - unfold rerender. cbn [fst snd].
    destruct (saveEffect_never_throws ls (render st)) as [ls' ->].
    simpl. eauto.
  - unfold mount, loadEffect, saveEffect, getItem, setItem. now rewrite H.
  - unfold rerender, saveEffect, setItem. cbn [fst snd]. now rewrite H.
Qed.

Lemma load_of_slot (ls : Storage) (text : string) (S : list CartItem) :
  enabled ls = true ->
  slots ls !! "shopping-cart" = Some text ->
  text <> "" ->
  JSON_parse text = Normal S ->
  load ls = Normal S.
Proof.
  intros Hon Hslot Hne Hparse. unfold load, loadEffect, getItem. rewrite Hon.
  cbn [mbind Completion_bind andThen]. rewrite Hslot. cbn [truthy default].
  destruct (String.eqb_spec text ""); [contradiction |].
  cbn [negb]. change (Datatypes.id text) with text. rewrite Hparse. reflexivity.
Qed.

(** X13: a render that follows some calls writes the snapshot it shows to
    the slot, so that a provider mounted afterwards loads that snapshot -
    provided the storage takes the text and the runtime reads it back. *)
Theorem rendered_snapshot_is_reloaded (st : CartProvider) (ls : Storage) :
  enabled ls = true ->
  (String.length (JSON_stringify (cartItems (render st))) <= quota ls)%nat ->
  JSON_stringify (cartItems (render st)) <> "" ->
  JSON_parse (JSON_stringify (cartItems (render st))) = Normal (cartItems (render st)) ->
  exists ls',
    rerender (st, ls) = Normal (render st, ls')
    /\ slots ls' !! "shopping-cart" = Some (JSON_stringify (cartItems (render st)))
    /\ load ls' = Normal (cartItems (render st)).
Proof.
  intros Hon Hfits Hne Hparse.
  unfold rerender, saveEffect. cbn [fst snd].
  rewrite (setItem_within_quota _ _ _ Hon Hfits).
  eexists. split; [reflexivity |]. split; [apply lookup_insert_eq |].
  apply (load_of_slot _ (JSON_stringify (cartItems (render st)))); try assumption.
  apply lookup_insert_eq.
Qed.

(** X14: a write that the storage refuses is dropped.  The provider shows
    the new snapshot, the slot keeps its old text, and a provider mounted
    afterwards loads what the slot held before, not the snapshot shown. *)
Theorem refused_save_leaves_stale_slot (st : CartProvider) (ls : Storage) :
  (quota ls < String.length (JSON_stringify (cartItems (render st))))%nat ->
  rerender (st, ls) = Normal (render st, ls).
Proof.
  intros Hbig. unfold rerender, saveEffect, setItem. cbn [fst snd].
  destruct (negb (enabled ls)); [reflexivity |].
  destruct (Nat.ltb_spec (quota ls) (String.length (JSON_stringify (cartItems (render st)))));
    [reflexivity | lia].
Qed.

(** X15: with storage enabled and a quota that takes the text of the empty
    cart, the first render writes the empty cart to the slot before any
    loaded snapshot is shown, whatever the slot held.  When, under the same
    two conditions, the slot held text that does not parse, nothing is
    queued to replace it: the provider stays empty and the unreadable text
    is gone. *)
Theorem mount_overwrites_slot_with_empty_cart (ls : Storage) :
  enabled ls = true ->
  (String.length (JSON_stringify []) <= quota ls)%nat ->
  (exists st ls', mount ls = Normal (st, ls')
                  /\ slots ls' !! "shopping-cart" = Some (JSON_stringify []))
  /\ (forall text e,
        slots ls !! "shopping-cart" = Some text ->
        JSON_parse text = Throw e ->
        exists ls', mount ls = Normal (initial, ls')
                    /\ slots ls' !! "shopping-cart" = Some (JSON_stringify [])).
Proof.
  intros Hon Hfits.
  assert (Hsave : saveEffect ls initial
                  = Normal {| enabled := enabled ls;
                              slots := <["shopping-cart" := JSON_stringify []]> (slots ls);
                              quota := quota ls |}).
  { unfold saveEffect. cbn [cartItems initial].
    now rewrite (setItem_within_quota _ _ _ Hon Hfits). }
  split.
  - unfold mount. destruct (loadEffect_never_throws ls initial) as [st' ->].
    rewrite Hsave. cbn [mbind Completion_bind andThen].
    eexists _, _. split; [reflexivity |]. apply lookup_insert_eq.
  - intros text e Hslot Hparse. unfold mount.
    assert (Hload : loadEffect ls initial = Normal initial).
    { unfold loadEffect, getItem. rewrite Hon.
      cbn [mbind Completion_bind andThen]. rewrite Hslot. cbn [truthy default].
      destruct (negb (String.eqb text "")); [| reflexivity].
      change (Datatypes.id text) with text. rewrite Hparse. reflexivity. }
    rewrite Hload, Hsave. cbn [mbind Completion_bind andThen].
    eexists. split; [reflexivity |]. apply lookup_insert_eq.
Qed.

(** X24: start-up restores the saved cart.  On a slot that holds the text
    of [S], the provider mounts, its first render writes the empty cart,
    and the render that follows shows [S] and writes [S] back - provided the
    storage takes both texts and the runtime reads the text of [S] back. *)
Theorem startup_restores_saved_cart (S : list CartItem) (ls : Storage) :
  enabled ls = true ->
  slots ls !! "shopping-cart" = Some (JSON_stringify S) ->
  JSON_stringify S <> "" ->
  JSON_parse (JSON_stringify S) = Normal S ->
  (String.length (JSON_stringify []) <= quota ls)%nat ->
  (String.length (JSON_stringify S) <= quota ls)%nat ->
  exists ls', (w ← mount ls; rerender w) = Normal (rendered S, ls')
              /\ slots ls' !! "shopping-cart" = Some (JSON_stringify S).
Proof.
  intros Hon Hslot Hne Hparse Hfits0 Hfits.
  assert (Hload : loadEffect ls initial = Normal (setCartItems (SetTo S) initial)).
  { unfold loadEffect, getItem. rewrite Hon.
    cbn [mbind Completion_bind andThen]. rewrite Hslot. cbn [truthy default].
    destruct (String.eqb_spec (JSON_stringify S) ""); [contradiction |].
    cbn [negb]. change (Datatypes.id (JSON_stringify S)) with (JSON_stringify S).
    now rewrite Hparse. }
  unfold mount. rewrite Hload. unfold saveEffect at 1.
  rewrite (setItem_within_quota _ _ _ Hon Hfits0).
  cbn [mbind Completion_bind andThen tryCatch].
  assert (Hrender : render (setCartItems (SetTo S) initial) = rendered S) by reflexivity.
  unfold rerender, saveEffect. cbn [fst snd]. rewrite Hrender. cbn [cartItems rendered].
  rewrite setItem_within_quota; [| exact Hon | exact Hfits].
  eexists. split; [reflexivity |]. apply lookup_insert_eq.
Qed.

Lemma loadEffect_only_queues (ls : Storage) (st st' : CartProvider) :
  loadEffect ls st = Normal st' ->
  cartItems st' = cartItems st
  /\ (queued st' = queued st \/ exists S, queued st' = queued st ++ [SetTo S]).
Proof.
  unfold loadEffect, getItem. destruct (enabled ls); cbn [mbind Completion_bind andThen tryCatch].
  - destruct (truthy (slots ls !! "shopping-cart")).
    + destruct (JSON_parse _) as [S | e]; cbn [andThen tryCatch]; intros [= <-].
      * split; [reflexivity |]. right. now exists S.
      * split; [reflexivity | now left].
    + intros [= <-]. split; [reflexivity | now left].
  - intros [= <-]. split; [reflexivity | now left].
Qed.

(** X25: start-up in a development build loses the saved cart.  With the
    effects run twice before the first re-render, the first save effect has
    already written the empty cart when the load effect reads the slot for
    the second time, so the update queued last sets the empty cart:
    whatever the slot held, the provider then shows the empty cart and the
    slot holds the empty cart's text. *)
Theorem strict_mode_startup_empties_cart (ls : Storage) :
  enabled ls = true ->
  JSON_stringify [] <> "" ->
  JSON_parse (JSON_stringify []) = Normal [] ->
  (String.length (JSON_stringify []) <= quota ls)%nat ->
  exists ls', (w ← strictMount ls; rerender w) = Normal (rendered [], ls')
              /\ slots ls' !! "shopping-cart" = Some (JSON_stringify []).
Proof.
  intros Hon Hne Hparse Hfits.
  destruct (loadEffect_never_throws ls initial) as [st1 Hload1].
  destruct (loadEffect_only_queues _ _ _ Hload1) as [Hitems1 Hqueue1].
  assert (Hwrite : forall l : Storage,
            enabled l = true -> quota l = quota ls ->
            exists l', setItem "shopping-cart" (JSON_stringify []) l = Normal l'
                       /\ enabled l' = true /\ quota l' = quota ls
                       /\ slots l' !! "shopping-cart" = Some (JSON_stringify [])).
  { intros l Hl Hquota. rewrite setItem_within_quota; [| exact Hl | now rewrite Hquota].
    eexists. split; [reflexivity |]. repeat split; [exact Hl | exact Hquota |].
    apply lookup_insert_eq. }
  assert (Hread : forall (l : Storage) st,
            enabled l = true ->
            slots l !! "shopping-cart" = Some (JSON_stringify []) ->
            loadEffect l st = Normal (setCartItems (SetTo []) st)).
  { intros l st Hl Hslot. unfold loadEffect, getItem. rewrite Hl.
    cbn [mbind Completion_bind andThen]. rewrite Hslot. cbn [truthy default].
    destruct (String.eqb_spec (JSON_stringify []) ""); [contradiction |].
    cbn [negb]. change (Datatypes.id (JSON_stringify [])) with (JSON_stringify []).
    now rewrite Hparse. }
  destruct (Hwrite ls Hon eq_refl) as (ls1 & Hset1 & Hon1 & Hquota1 & Hslot1).
  destruct (Hwrite ls1 Hon1 Hquota1) as (ls2 & Hset2 & Hon2 & Hquota2 & Hslot2).
  destruct (Hwrite ls2 Hon2 Hquota2) as (ls3 & Hset3 & Hon3 & Hquota3 & Hslot3).
  assert (Hrender : render (setCartItems (SetTo []) st1) = rendered []).
  { unfold render, setCartItems, rendered. cbn [cartItems queued].
    now rewrite fold_left_app. }
  assert (Hsave : forall (l l' : Storage) st,
            cartItems st = [] ->
            setItem "shopping-cart" (JSON_stringify []) l = Normal l' ->
            saveEffect l st = Normal l').
  { intros l l' st Hst Hset. unfold saveEffect. now rewrite Hst, Hset. }
  exists ls3. split; [| exact Hslot3].
  unfold strictMount. rewrite Hload1.
  cbn [mbind Completion_bind andThen].
  rewrite (Hsave ls ls1 initial eq_refl Hset1). cbn [mbind Completion_bind andThen].
  rewrite (Hread ls1 st1 Hon1 Hslot1). cbn [mbind Completion_bind andThen].
  rewrite (Hsave ls1 ls2 (setCartItems (SetTo []) st1) Hitems1 Hset2).
  cbn [mbind Completion_bind andThen].
  unfold rerender. cbn [fst snd]. rewrite Hrender.
  rewrite (Hsave ls2 ls3 (rendered []) eq_refl Hset3). reflexivity.
Qed.

End PersistenceLifecycle.

Lemma persistence_failures_are_contained_witness :
  @mount tabulatedJSON {| enabled := false; slots := ∅; quota := 0 |}
  = Normal (initial, {| enabled := false; slots := ∅; quota := 0 |}).
Proof.
  apply (proj2 (proj2 (@persistence_failures_are_contained tabulatedJSON initial
                         {| enabled := false; slots := ∅; quota := 0 |}))).
  reflexivity.
Defined.

Lemma rendered_snapshot_is_reloaded_witness :
  exists ls',
    @rerender tabulatedJSON (addToCart blackBoot 2 initial, emptyStorage)
    = Normal (rendered sampleCart, ls')
    /\ slots ls' !! "shopping-cart" = Some sampleCartText
    /\ @load tabulatedJSON ls' = Normal sampleCart.
Proof.
  apply (@rendered_snapshot_is_reloaded tabulatedJSON (addToCart blackBoot 2 initial) emptyStorage).
  - reflexivity.
  - vm_compute. lia.
  - discriminate.
  - reflexivity.
Defined.

Lemma refused_save_leaves_stale_slot_witness :
  @rerender tabulatedJSON
     (addToCart blackBoot 2 initial,
      {| enabled := true; slots := {[ "shopping-cart" := "[]" ]}; quota := 16 |})
  = Normal (rendered sampleCart,
            {| enabled := true; slots := {[ "shopping-cart" := "[]" ]}; quota := 16 |}).
Proof.
  apply (@refused_save_leaves_stale_slot tabulatedJSON (addToCart blackBoot 2 initial)
           {| enabled := true; slots := {[ "shopping-cart" := "[]" ]}; quota := 16 |}).
  vm_compute. lia.
Defined.

Lemma mount_overwrites_slot_with_empty_cart_witness :
  exists ls', @mount tabulatedJSON corruptedStorage = Normal (initial, ls')
              /\ slots ls' !! "shopping-cart" = Some "[]".
Proof.
  apply (proj2 (@mount_overwrites_slot_with_empty_cart tabulatedJSON corruptedStorage
                  eq_refl ltac:(vm_compute; lia))
           "[{id:5,,," SyntaxError); reflexivity.
Defined.

Lemma startup_restores_saved_cart_witness :
  exists ls',
    (w ← @mount tabulatedJSON savedStorage; @rerender tabulatedJSON w)
    = Normal (rendered sampleCart, ls')
    /\ slots ls' !! "shopping-cart" = Some sampleCartText.
Proof.
  apply (@startup_restores_saved_cart tabulatedJSON sampleCart savedStorage).
  - reflexivity.
  - reflexivity.
  - discriminate.
  - reflexivity.
  - vm_compute. lia.
  - vm_compute. lia.
Defined.

(** ** Further properties of the catalog filter *)

Lemma toLowerCase_char_idempotent (c : ascii) :
  toLowerCase_char (toLowerCase_char c) = toLowerCase_char c.
Proof.
  unfold toLowerCase_char.
  destruct ((65 <=? N_of_ascii c) && (N_of_ascii c <=? 90))%N eqn:Hupper; [| now rewrite Hupper].
  apply andb_true_iff in Hupper as [Hlow Hhigh].
  apply N.leb_le in Hlow, Hhigh.
  rewrite N_ascii_embedding by lia.
  destruct (N.leb_spec (N_of_ascii c + 32) 90); [lia |].
  now rewrite andb_false_r.
Qed.

Lemma toLowerCase_idempotent (s : string) : toLowerCase (toLowerCase s) = toLowerCase s.
Proof.
  induction s as [| c s IH]; simpl; [reflexivity |].
  now rewrite toLowerCase_char_idempotent, IH.
Qed.

(** X16: the filter never reorders, repeats or invents products: its
    result is the catalog with products left out.  Filtering the result
    again with the same selector changes nothing, and a selector selects
    what its lower-cased form selects. *)
Theorem categoryProducts_is_a_stable_selection
    (categoryName : string) (PRODUCTS : list Product) :
  sublist (categoryProducts categoryName PRODUCTS) PRODUCTS
  /\ categoryProducts categoryName (categoryProducts categoryName PRODUCTS)
     = categoryProducts categoryName PRODUCTS
  /\ categoryProducts (toLowerCase categoryName) PRODUCTS
     = categoryProducts categoryName PRODUCTS.
Proof.
  unfold categoryProducts. repeat split.
  - apply filter_sublist.
  - apply filter_twice.
  - apply List.filter_ext. intros p.
    apply matchesCategory_lowercase, toLowerCase_idempotent.
Qed.

(** X17: how the promotion selectors relate, on every catalog.  "Black
    Friday" selects what "Sale & Clearance" selects; a product is under
    "Cyber Days" exactly when it is under "Sale & Clearance" or under
    "Featured"; and for these four promotions the product's category plays
    no part. *)
Theorem promotion_selectors_relate
    (sale blackFriday cyberDays featuredSel : string) (PRODUCTS : list Product) :
  In (toLowerCase sale) ["sale & clearance"; "sale-clearance"] ->
  In (toLowerCase blackFriday) ["black friday"; "black-friday"] ->
  In (toLowerCase cyberDays) ["cyber days"; "cyber-days"] ->
  toLowerCase featuredSel = "featured" ->
  categoryProducts blackFriday PRODUCTS = categoryProducts sale PRODUCTS
  /\ (forall p, In p (categoryProducts cyberDays PRODUCTS)
                <-> In p (categoryProducts sale PRODUCTS)
                    \/ In p (categoryProducts featuredSel PRODUCTS))
  /\ (forall selector p p',
        In selector [sale; blackFriday; cyberDays; featuredSel] ->
        onSale p = onSale p' -> featured p = featured p' ->
        matchesCategory selector p = matchesCategory selector p').
Proof.
  intros Hsale Hbf Hcyber Hfeat.
  assert (Msale : forall p, matchesCategory sale p = isTrue (onSale p)).
  { intros p. unfold matchesCategory.
    destruct Hsale as [<- | [<- | []]]; reflexivity. }
  assert (Mbf : forall p, matchesCategory blackFriday p = isTrue (onSale p)).
  { intros p. unfold matchesCategory.
    destruct Hbf as [<- | [<- | []]]; reflexivity. }
  assert (Mcyber : forall p, matchesCategory cyberDays p
                             = isTrue (onSale p) || isTrue (featured p)).
  { intros p. unfold matchesCategory.
    destruct Hcyber as [<- | [<- | []]]; reflexivity. }
  assert (Mfeat : forall p, matchesCategory featuredSel p = isTrue (featured p)).
  { intros p. unfold matchesCategory. rewrite Hfeat. reflexivity. }
  unfold categoryProducts. repeat split.
  - apply List.filter_ext. intros p. now rewrite Mbf, Msale.
  - rewrite !List.filter_In, Mcyber, Msale, Mfeat.
    intros [Hin Hm]. apply orb_true_iff in Hm. tauto.
  - rewrite !List.filter_In, Mcyber, Msale, Mfeat.
    intros [[Hin Hm] | [Hin Hm]]; (split; [exact Hin |]); rewrite Hm;
      [reflexivity | apply orb_true_r].
  - intros selector p p' Hsel HonSale Hfeatured.
    destruct Hsel as [<- | [<- | [<- | [<- | []]]]];
      rewrite ?Msale, ?Mbf, ?Mcyber, ?Mfeat, ?HonSale, ?Hfeatured; reflexivity.
Qed.

Lemma promotion_selectors_relate_witness :
  categoryProducts "Black Friday" [sneaker; boot; unlabelled]
  = categoryProducts "Sale & Clearance" [sneaker; boot; unlabelled].
Proof.
  apply (promotion_selectors_relate "Sale & Clearance" "Black Friday" "Cyber Days" "Featured"
           [sneaker; boot; unlabelled]).
  - left. reflexivity.
  - left. reflexivity.
  - left. reflexivity.
  - reflexivity.
Defined.

(** X18: under the default rule a product is listed under one selector
    only, up to letter case: two plain category selectors that both select
    a product have the same lower-cased form.  A product without a category
    is listed under no plain selector. *)
Theorem plain_categories_do_not_overlap (s1 s2 : string) (p : Product) :
  ~ In (toLowerCase s1) specialSelectors ->
  ~ In (toLowerCase s2) specialSelectors ->
  (matchesCategory s1 p = true -> matchesCategory s2 p = true ->
     toLowerCase s1 = toLowerCase s2)
  /\ (category p = None -> matchesCategory s1 p = false).
Proof.
  intros H1 H2.
  rewrite (matchesCategory_default _ _ H1), (matchesCategory_default _ _ H2).
  split.
  - destruct (negb (truthy (category p))); [discriminate |].
    intros Hm1 Hm2. apply String.eqb_eq in Hm1, Hm2. congruence.
  - intros ->. reflexivity.
Qed.

Lemma plain_categories_do_not_overlap_witness :
  matchesCategory "Kids" unlabelled = false
  /\ matchesCategory "Kids"
       {| id := 11; name := "Rain Boot"; price := Q2Qc (inject_Z 25); originalPrice := None;
          category := None; onSale := Some true; featured := None; stock := None;
          colors := None; sizes := None |} = false.
Proof.
  split; [reflexivity |].
  apply (proj2 (plain_categories_do_not_overlap "Kids" "Men"
     {| id := 11; name := "Rain Boot"; price := Q2Qc (inject_Z 25); originalPrice := None;
        category := None; onSale := Some true; featured := None; stock := None;
        colors := None; sizes := None |}
     ltac:(simpl; intros H; repeat (destruct H as [H | H]; [discriminate H |]); exact H)
     ltac:(simpl; intros H; repeat (destruct H as [H | H]; [discriminate H |]); exact H))).
  reflexivity.
Defined.

(** ** Properties of the product detail view (ProductDetail.js) *)

(** X19: with at least one image and an index inside the gallery, both
    arrows keep the index inside the gallery and wrap around at its ends;
    each arrow undoes the other. *)
Theorem image_arrows_cycle (productImages : list string) (index : Z) :
  0 <= index < Z.of_nat (length productImages) ->
  0 <= ProductDetail_js.handleNextImage productImages index < Z.of_nat (length productImages)
  /\ 0 <= ProductDetail_js.handlePreviousImage productImages index
       < Z.of_nat (length productImages)
  /\ ProductDetail_js.handleNextImage productImages index
     = (index + 1) mod Z.of_nat (length productImages)
  /\ ProductDetail_js.handlePreviousImage productImages index
     = (index - 1) mod Z.of_nat (length productImages)
  /\ ProductDetail_js.handlePreviousImage productImages
       (ProductDetail_js.handleNextImage productImages index) = index
  /\ ProductDetail_js.handleNextImage productImages
       (ProductDetail_js.handlePreviousImage productImages index) = index.
Proof.
  unfold ProductDetail_js.handleNextImage, ProductDetail_js.handlePreviousImage.
  set (n := Z.of_nat (length productImages)). intros Hrange.
  assert (Hnext : (index + 1) mod n = if index <? n - 1 then index + 1 else 0).
  { destruct (Z.ltb_spec index (n - 1)).
    - apply Z.mod_small. lia.
    - replace (index + 1) with n by lia. apply Z.mod_same. lia. }
  assert (Hprev : (index - 1) mod n = if 0 <? index then index - 1 else n - 1).
  { destruct (Z.ltb_spec 0 index).
    - apply Z.mod_small. lia.
    - replace (index - 1) with (n - 1 + (-1) * n) by lia.
      rewrite Z.mod_add by lia. apply Z.mod_small. lia. }
  rewrite Hnext, Hprev.
  repeat split;
    repeat match goal with
    | |- context [?a <? ?b] => destruct (Z.ltb_spec a b)
    | H : context [?a <? ?b] |- _ => destruct (Z.ltb_spec a b)
    end; lia.
Qed.

Lemma image_arrows_cycle_witness :
  ProductDetail_js.handleNextImage ["front.jpg"; "side.jpg"; "sole.jpg"] 2 = 0
  /\ ProductDetail_js.handlePreviousImage ["front.jpg"; "side.jpg"; "sole.jpg"] 0 = 2.
Proof.
  split.
  - rewrite (proj1 (proj2 (proj2 (image_arrows_cycle ["front.jpg"; "side.jpg"; "sole.jpg"] 2
               ltac:(simpl; lia)))));
      reflexivity.
  - rewrite (proj1 (proj2 (proj2 (proj2 (image_arrows_cycle ["front.jpg"; "side.jpg"; "sole.jpg"] 0
               ltac:(simpl; lia))))));
      reflexivity.
Defined.

Lemma Math_round_between (x : Qc) (lo hi : Z) :
  (number lo <= x)%Qc -> (x <= number hi)%Qc -> lo <= Math_round x <= hi.
Proof.
  unfold Math_round, number, Qcle, Qcplus, Q2Qc. cbn [this].
  rewrite !Qred_correct. intros Hlo Hhi.
  split.
  - rewrite <- (Qfloor_Z lo). apply Qfloor_resp_le. lra.
  - pose proof (Qfloor_le (x + (1 # 2))) as Hfl.
    assert (H : (inject_Z (Qfloor (x + (1 # 2))) < inject_Z (hi + 1))%Q).
    { rewrite inject_Z_plus. change (inject_Z 1) with 1%Q. lra. }
    rewrite <- Zlt_Qlt in H. lia.
Qed.

Lemma discount_ratio_between (o p : Qc) :
  (Q2Qc 0 <= p)%Qc -> (p < o)%Qc ->
  (number 0 <= (o - p) / o * number 100)%Qc /\ ((o - p) / o * number 100 <= number 100)%Qc.
Proof.
  intros Hp Hlt.
  assert (Ho : (Q2Qc 0 < o)%Qc) by (eapply Qcle_lt_trans; eauto).
  assert (Hne : o <> Q2Qc 0).
  { intros ->. now apply Qclt_not_eq in Ho. }
  assert (Hr : ((o - p) / o * o = o - p)%Qc) by (field; exact Hne).
  pose proof (number_positive 100 ltac:(lia)) as H100.
  assert (Hlow : (Q2Qc 0 <= (o - p) / o)%Qc).
  { apply (proj2 (Qcmult_le_mono_pos_r _ _ o Ho)). rewrite Hr.
    replace (Q2Qc 0 * o)%Qc with (Q2Qc 0) by ring.
    apply Qcle_minus_iff. apply Qclt_le_weak in Hlt.
    apply Qcle_minus_iff in Hlt.
    replace (o - p + - Q2Qc 0)%Qc with (o + - p)%Qc by ring. exact Hlt. }
  assert (Hhigh : ((o - p) / o <= 1)%Qc).
  { apply (proj2 (Qcmult_le_mono_pos_r _ _ o Ho)). rewrite Hr.
    replace (1 * o)%Qc with o by ring.
    apply Qcle_minus_iff. replace (o + - (o - p))%Qc with (p + - Q2Qc 0)%Qc by ring.
    now apply Qcle_minus_iff in Hp. }
  split.
  - change (number 0) with (Q2Qc 0).
    replace (Q2Qc 0) with (Q2Qc 0 * number 100)%Qc at 1 by ring.
    exact (proj1 (Qcmult_le_mono_pos_r (Q2Qc 0) ((o - p) / o) _ H100) Hlow).
  - replace (number 100) with (1 * number 100)%Qc at 2 by ring.
    exact (proj1 (Qcmult_le_mono_pos_r ((o - p) / o) 1 _ H100) Hhigh).
Qed.

(** X20: the discount percentage of the detail view is 0 when the product
    has no original price or one that is not above its price, and for a
    product with a non-negative price it always lies between 0 and 100. *)
Theorem discountPercentage_is_a_percentage (product : Product) :
  (originalPrice product = None -> ProductDetail_js.discountPercentage product = 0)
  /\ (forall original, originalPrice product = Some original ->
        (original <= price product)%Qc ->
        ProductDetail_js.discountPercentage product = 0)
  /\ ((Q2Qc 0 <= price product)%Qc ->
        0 <= ProductDetail_js.discountPercentage product <= 100).
Proof.
  unfold ProductDetail_js.discountPercentage. repeat split.
  - intros ->. reflexivity.
  - intros original -> Hle.
    rewrite (bool_decide_eq_false_2 (price product < original)%Qc).
    + now rewrite andb_false_r.
    + now apply Qcle_not_lt.
  - destruct (originalPrice product) as [original |]; [| lia].
    destruct (bool_decide (original <> Q2Qc 0)); simpl; [| lia].
    destruct (bool_decide (price product < original)%Qc) eqn:Hlt; [| lia].
    apply bool_decide_eq_true in Hlt.
    destruct (discount_ratio_between original (price product) H Hlt) as [Hlow Hhigh].
    apply (Math_round_between _ 0 100 Hlow Hhigh).
  - destruct (originalPrice product) as [original |]; [| lia].
    destruct (bool_decide (original <> Q2Qc 0)); simpl; [| lia].
    destruct (bool_decide (price product < original)%Qc) eqn:Hlt; [| lia].
    apply bool_decide_eq_true in Hlt.
    destruct (discount_ratio_between original (price product) H Hlt) as [Hlow Hhigh].
    apply (Math_round_between _ 0 100 Hlow Hhigh).
Qed.

Lemma discountPercentage_is_a_percentage_witness :
  0 <= ProductDetail_js.discountPercentage boot <= 100
  /\ ProductDetail_js.discountPercentage sneaker = 0.
Proof.
  split.
  - apply (proj2 (proj2 (discountPercentage_is_a_percentage boot))).
    unfold Qcle. simpl. unfold Qle. simpl. lia.
  - apply (proj1 (discountPercentage_is_a_percentage sneaker)). reflexivity.
Defined.

(** ** Properties of the product link (ProductCard.js, app/product/[id]/page.js) *)

Lemma digitsFrom_positive (d : Decimal.uint) (acc : positive) :
  digitsFrom d (Z.pos acc) = Z.pos (Pos.of_uint_acc d acc).
Proof.
  revert acc. induction d as [| d IH | d IH | d IH | d IH | d IH | d IH | d IH | d IH | d IH | d IH];
    intros acc; simpl; [reflexivity | ..]; rewrite <- IH; f_equal; lia.
Qed.

Lemma digitsFrom_of_uint (d : Decimal.uint) : digitsFrom d 0 = Z.of_N (Pos.of_uint d).
Proof.
  induction d as [| d IH | d IH | d IH | d IH | d IH | d IH | d IH | d IH | d IH | d IH];
    simpl; [reflexivity | exact IH | ..]; apply digitsFrom_positive.
Qed.

(** Reading the printed digits [d], followed by text that does not start
    with a digit. *)
Lemma parseDigits_printed (d : Decimal.uint) (suffix : string) (acc : option Z) :
  match suffix with String c _ => digitValue c = None | EmptyString => True end ->
  d <> Decimal.Nil ->
  parseDigits (NilEmpty.string_of_uint d +:+ suffix) acc
  = Some (digitsFrom d (default 0 acc)).
Proof.
  intros Hsuffix.
  assert (Hgen : forall d acc,
            parseDigits (NilEmpty.string_of_uint d +:+ suffix) (Some acc)
            = Some (digitsFrom d acc)).
  { clear d acc.
    induction d as [| d IH | d IH | d IH | d IH | d IH | d IH | d IH | d IH | d IH | d IH];
      intros acc; simpl; try apply IH.
    destruct suffix as [| c rest]; simpl; [reflexivity |]. now rewrite Hsuffix. }
  destruct d; intros Hd; try contradiction; simpl; apply Hgen.
Qed.

Lemma printed_digits_head (d : Decimal.uint) (suffix : string) :
  d <> Decimal.Nil ->
  exists c rest,
    NilEmpty.string_of_uint d +:+ suffix = String c rest
    /\ isWhiteSpace c = false /\ c <> "-"%char /\ c <> "+"%char.
Proof.
  destruct d; intros Hd; try contradiction; simpl;
    eexists _, _; (split; [reflexivity |]); repeat split; discriminate.
Qed.

Lemma parseInt_printed_unsigned (d : Decimal.uint) (suffix : string) :
  match suffix with String c _ => digitValue c = None | EmptyString => True end ->
  d <> Decimal.Nil ->
  parseInt (NilEmpty.string_of_uint d +:+ suffix) = Some (Z.of_N (Pos.of_uint d)).
Proof.
  intros Hsuffix Hd.
  destruct (printed_digits_head d suffix Hd) as (c & rest & Heq & Hws & Hminus & Hplus).
  unfold parseInt. rewrite Heq. simpl trimStart. rewrite Hws.
  assert (Hbody : parseDigits (String c rest) None = Some (Z.of_N (Pos.of_uint d))).
  { rewrite <- Heq, (parseDigits_printed d suffix None Hsuffix Hd). simpl.
    now rewrite digitsFrom_of_uint. }
  destruct c as [[] [] [] [] [] [] [] []]; try exact Hbody; congruence.
Qed.

(** [parseInt] reads back the number a template literal printed, also when
    other text that does not start with a digit follows it. *)
Lemma parseInt_numberToString (n : Z) (suffix : string) :
  match suffix with String c _ => digitValue c = None | EmptyString => True end ->
  parseInt (numberToString n +:+ suffix) = Some n.
Proof.
  intros Hsuffix. unfold numberToString. destruct n as [| p | p].
  - change (NilEmpty.string_of_int (Z.to_int 0))
      with (NilEmpty.string_of_uint Decimal.zero).
    rewrite (parseInt_printed_unsigned Decimal.zero suffix Hsuffix); [reflexivity | discriminate].
  - change (NilEmpty.string_of_int (Z.to_int (Z.pos p)))
      with (NilEmpty.string_of_uint (Pos.to_uint p)).
    rewrite (parseInt_printed_unsigned _ suffix Hsuffix (Unsigned.to_uint_nonnil p)).
    now rewrite DecimalPos.Unsigned.of_to.
  - change (NilEmpty.string_of_int (Z.to_int (Z.neg p)) +:+ suffix)
      with (String "-" (NilEmpty.string_of_uint (Pos.to_uint p) +:+ suffix)).
    unfold parseInt. cbn [trimStart]. change (isWhiteSpace "-") with false. cbv iota.
    rewrite (parseDigits_printed _ suffix None Hsuffix (Unsigned.to_uint_nonnil p)).
    cbn [default fmap option_fmap option_map].
    now rewrite digitsFrom_of_uint, DecimalPos.Unsigned.of_to.
Qed.

Lemma find_by_id (PRODUCTS : list Product) (p : Product) :
  In p PRODUCTS ->
  List.NoDup (map (fun q : Product => id q) PRODUCTS) ->
  List.find (fun q : Product => id q =? id p) PRODUCTS = Some p.
Proof.
  induction PRODUCTS as [| x PRODUCTS IH]; simpl; [tauto |].
  intros Hin Hnd. apply List.NoDup_cons_iff in Hnd as [Hnot Hnd].
  destruct Hin as [-> | Hin]; [now rewrite Z.eqb_refl |].
  destruct (Z.eqb_spec (id x) (id p)) as [Heq | Hne]; [| now apply IH].
  exfalso. apply Hnot. rewrite Heq. apply List.in_map_iff. eauto.
Qed.

(** X21: in a catalog with distinct product ids, the link a product card
    navigates to leads to the page of that very product - also when other
    text that does not start with a digit follows the id in the route.  A
    route parameter from which [parseInt] reads no number, or a number that
    is no product's id, leads to "Product Not Found". *)
Theorem product_link_round_trip (PRODUCTS : list Product) (p : Product) (suffix : string) :
  In p PRODUCTS ->
  List.NoDup (map (fun q : Product => id q) PRODUCTS) ->
  match suffix with String c _ => digitValue c = None | EmptyString => True end ->
  ProductPage PRODUCTS (productRouteParam p) = Some p
  /\ ProductPage PRODUCTS (productRouteParam p +:+ suffix) = Some p
  /\ (forall text, parseInt text = None -> ProductPage PRODUCTS text = None)
  /\ (forall text n, parseInt text = Some n ->
        ~ In n (map (fun q : Product => id q) PRODUCTS) ->
        ProductPage PRODUCTS text = None).
Proof.
  intros Hin Hnd Hsuffix.
  assert (Hlink : forall tail,
            match tail with String c _ => digitValue c = None | EmptyString => True end ->
            ProductPage PRODUCTS (productRouteParam p +:+ tail) = Some p).
  { intros tail Htail. unfold ProductPage, productRouteParam.
    rewrite (parseInt_numberToString _ _ Htail). now apply find_by_id. }
  repeat split.
  - specialize (Hlink "" I).
    assert (Hnil : forall s : string, s +:+ "" = s).
    { induction s as [| c s IH]; [reflexivity |].
      change (String c (s +:+ "") = String c s). now rewrite IH. }
    now rewrite Hnil in Hlink.
  - now apply Hlink.
  - intros text Hnone. unfold ProductPage. now rewrite Hnone.
  - intros text n Hsome Hnot. unfold ProductPage. rewrite Hsome.
    destruct (List.find _ PRODUCTS) as [q |] eqn:Hfind; [| reflexivity].
    apply List.find_some in Hfind as [Hq Heq]. apply Z.eqb_eq in Heq.
    exfalso. apply Hnot. rewrite <- Heq. apply List.in_map_iff. eauto.
Qed.

Lemma product_link_round_trip_witness :
  ProductPage [sneaker; boot; unlabelled] (productRouteParam boot +:+ "-steel-toe-boot") = Some boot.
Proof.
  apply (proj1 (proj2 (product_link_round_trip [sneaker; boot; unlabelled] boot "-steel-toe-boot"
           ltac:(simpl; tauto)
           ltac:(repeat constructor; simpl; intuition lia)
           eq_refl))).
Defined.

(** ** Colours in a shopping session *)

Lemma applyUpdate_keeps_added (Q : ProductToAdd -> Prop) (m : Mutation) (S : list CartItem) :
  match m with
  | Add prod _ => Q prod
  | _ => True
  end ->
  Forall (fun item : CartItem => Q item) S ->
  Forall (fun item : CartItem => Q item) (applyUpdate (updateOf m) S).
Proof.
  intros Hm HS.
  assert (Hfilter : forall f, Forall (fun item : CartItem => Q item) (List.filter f S)).
  { intros f. apply List.Forall_forall. intros item Hin.
    apply List.filter_In in Hin as [Hin _]. revert item Hin. now apply List.Forall_forall. }
  assert (Hmap : forall (g : CartItem -> Z) i,
            Forall (fun item : CartItem => Q item)
                   (map (fun item : CartItem =>
                           if id item =? i then withQuantity item (g item) else item) S)).
  { intros g i. apply Forall_map. eapply Forall_impl; [exact HS |].
    intros item Hitem. simpl in *. now destruct (id item =? i). }
  destruct m as [prod qty | productId | productId qty | ]; simpl.
  - destruct (List.find _ S).
    + apply (Hmap (fun item => quantity item + qty)).
    + apply Forall_app. split; [exact HS |]. repeat constructor. exact Hm.
  - apply Hfilter.
  - destruct (qty <=? 0); simpl; [apply Hfilter | apply (Hmap (fun _ => qty))].
  - constructor.
Qed.

Lemma firstColor_offered (product : Product) :
  offered product (ProductCard_js.firstColor product).
Proof.
  unfold offered, ProductCard_js.firstColor.
  destruct (colors product) as [[| c rest] |]; simpl; try exact I. apply list_elem_of_here.
Qed.

Lemma productToAdd_offered (product : Product) (cell : option string) :
  offered product cell ->
  offeredOnLine (ProductCard_js.productToAdd product cell).
Proof.
  intros Hcell. unfold offeredOnLine, ProductCard_js.productToAdd. simpl.
  unfold ProductCard_js.firstTruthy.
  destruct (truthy cell); [exact Hcell |].
  destruct (truthy (ProductCard_js.firstColor product)); [apply firstColor_offered | exact I].
Qed.

Lemma cardGesture_colour (product : Product) (g : CardGesture)
    (card : ProductCard_js.State) (st : CartProvider) :
  offered product (ProductCard_js.selectedColorCell card) ->
  exists card' st',
    cardGesture product g card st = (card', st')
    /\ offered product (ProductCard_js.selectedColorCell card')
    /\ (st' = st
        \/ st' = perform (Add (ProductCard_js.productToAdd product
                                 (ProductCard_js.selectedColorCell card))
                              (ProductCard_js.quantityCell card)) st).
Proof.
  intros Hc. unfold cardGesture. cbv zeta.
  destruct g as [| | text | c |].
  - destruct (_ || _); eexists _, _; (split; [reflexivity |]); (split; [exact Hc | now left]).
  - destruct (_ || _); eexists _, _; (split; [reflexivity |]); (split; [exact Hc | now left]).
  - destruct (ProductCard_js.isOutOfStock product);
      eexists _, _; (split; [reflexivity |]); (split; [exact Hc | now left]).
  - destruct (bool_decide (c ∈ default [] (colors product))) eqn:Hin;
      eexists _, _; (split; [reflexivity |]); (split; [| now left]); [| exact Hc].
    simpl. now apply bool_decide_eq_true in Hin.
  - destruct (ProductCard_js.isOutOfStock product);
      eexists _, _; (split; [reflexivity |]); (split; [exact Hc |]); [now left | now right].
Qed.

Lemma lineGesture_is_call (item : CartItem) (lg : LineGesture) (st : CartProvider) :
  exists m, lineGesture item lg st = perform m st
            /\ match m with Add _ _ => False | _ => True end.
Proof.
  destruct lg; simpl.
  - exists (SetQuantity (id item) (quantity item - 1)). split; [| exact I].
    unfold CartItem_js.handleQuantityChange. simpl. unfold updateQuantity.
    destruct (Z.ltb_spec (quantity item - 1) 1), (Z.leb_spec (quantity item - 1) 0);
      try reflexivity; lia.
  - exists (SetQuantity (id item) (quantity item + 1)). split; [| exact I].
    unfold CartItem_js.handleQuantityChange. simpl. unfold updateQuantity.
    destruct (Z.ltb_spec (quantity item + 1) 1), (Z.leb_spec (quantity item + 1) 0);
      try reflexivity; lia.
  - exists (Remove (id item)). now split.
Qed.

Lemma gesture_keeps_colours (PRODUCTS : list Product) (pg : Page) (g : Gesture) :
  colourInvariant PRODUCTS pg -> colourInvariant PRODUCTS (gesture PRODUCTS pg g).
Proof.
  intros (Hq & Hcards & Hcart).
  destruct g as [i cg | i lg |]; simpl.
  - destruct (PRODUCTS !! i) as [product |] eqn:Hp; [| now repeat split].
    destruct (cards pg !! i) as [card |] eqn:Hc; [| now repeat split].
    pose proof (Forall2_lookup_lr _ _ _ _ _ _ Hcards Hp Hc) as Hcard.
    destruct (cardGesture_colour product cg card (provider pg) Hcard)
      as (card' & st' & -> & Hcard' & Hst).
    assert (Hcards' : Forall2 (fun product card =>
                                 offered product (ProductCard_js.selectedColorCell card))
                              PRODUCTS (<[i := card']> (cards pg))).
    { rewrite <- (list_insert_id PRODUCTS i product Hp). now apply Forall2_insert. }
    destruct Hst as [-> | ->].
    + rewrite (render_idle _ Hq). now repeat split.
    + rewrite (render_after_call _ _ Hq).
      repeat split; [exact Hcards' |].
      apply (applyUpdate_keeps_added offeredOnLine
               (Add (ProductCard_js.productToAdd product (ProductCard_js.selectedColorCell card))
                    (ProductCard_js.quantityCell card))
               (cartItems (provider pg))); [| exact Hcart].
      now apply productToAdd_offered.
  - destruct (cartItems (provider pg) !! i) as [item |] eqn:Hi; [| now repeat split].
    destruct (lineGesture_is_call item lg (provider pg)) as (m & -> & Hm).
    rewrite (render_after_call _ _ Hq).
    repeat split; [exact Hcards |].
    apply (applyUpdate_keeps_added offeredOnLine m (cartItems (provider pg))); [| exact Hcart].
    destruct m; try exact I. contradiction.
  - unfold clearCart. repeat split; [exact Hcards |]. simpl. rewrite Hq. constructor.
Qed.

(** X22: in a session on the home page, the colour recorded on a cart line
    is always one of the colours its product comes in, or none: the card
    preselects the first colour, takes a click only on one of the product's
    swatches, and a later add of the same product does not touch the
    colour of the line. *)
Theorem session_records_offered_colours (PRODUCTS : list Product) (gs : list Gesture) :
  Forall (fun item : CartItem => offered item (selectedColor item))
         (cartItems (provider (session PRODUCTS gs))).
Proof.
  assert (Hinv : colourInvariant PRODUCTS (session PRODUCTS gs)).
  { unfold session.
    assert (Hopen : colourInvariant PRODUCTS (openPage PRODUCTS)).
    { unfold colourInvariant, openPage. simpl. repeat split; [| constructor].
      apply Forall2_fmap_r. apply Forall_Forall2_diag.
      apply Forall_true. intros product. apply firstColor_offered. }
    revert Hopen. generalize (openPage PRODUCTS).
    induction gs as [| g gs IH]; intros pg Hpg; simpl; [exact Hpg |].
    apply IH. now apply gesture_keeps_colours. }
  destruct Hinv as (_ & _ & Hcart). exact Hcart.
Qed.

(** X23: at the provider itself, as long as every [add] asks for at least
    one unit, every snapshot rendered from one with quantities of at least
    1 has quantities of at least 1 - whatever the arguments of [remove] and
    [setQuantity]; in particular every snapshot so reached from the empty
    cart. *)
Theorem quantities_stay_positive_under_positive_adds
    (ms : list Mutation) (S : list CartItem) :
  addsAtLeastOne ms ->
  (positiveQuantities S -> positiveQuantities (snapshotAfter ms S))
  /\ positiveQuantities (snapshotAfter ms []).
Proof.
  intros Hms. split.
  - now apply positive_adds_keep_invariant.
  - apply positive_adds_keep_invariant; [exact Hms | constructor].
Qed.

Lemma quantities_stay_positive_under_positive_adds_witness :
  positiveQuantities (snapshotAfter
    [Add blackBoot 2; SetQuantity 5 (-3); Add plainSneaker 1; SetQuantity 7 4; Remove 9]
    [ {| added := blackBoot; quantity := 1 |} ]).
Proof.
  apply (proj1 (quantities_stay_positive_under_positive_adds
    [Add blackBoot 2; SetQuantity 5 (-3); Add plainSneaker 1; SetQuantity 7 4; Remove 9]
    [ {| added := blackBoot; quantity := 1 |} ]
    ltac:(repeat constructor; simpl; lia))).
  repeat constructor. simpl. lia.
Defined.

Lemma strict_mode_startup_empties_cart_witness :
  exists ls', (w ← @strictMount tabulatedJSON savedStorage; @rerender tabulatedJSON w)
              = Normal (rendered [], ls')
              /\ slots ls' !! "shopping-cart" = Some "[]".
Proof.
  apply (@strict_mode_startup_empties_cart tabulatedJSON savedStorage).
  - reflexivity.
  - discriminate.
  - reflexivity.
  - vm_compute. lia.
Defined.
